(** * slither-prop, automatic token properties (properties/auto.py)

    A shallow embedding of [checksum_encode], [AUTO_token_max] and
    [detect_token_props], together with the Python built-ins they call,
    followed by the properties stated about them. *)

From Stdlib Require Import ZArith NArith Lia Bool List Ascii String.
From Stdlib Require Import DecimalString.
Import ListNotations.

Open Scope string_scope.

(** ** Python values

    A Python [str] is modelled by [string], one character per code point
    below 256; [lower] and [upper] act on the ASCII range, which is what
    addresses, selectors and call data are made of, and [int] reads every
    such string as Python does.  An exception is a value of [PyError], and a
    computation that may raise returns a [result]. *)

Inductive PyError : Type :=
| ValueError
| TypeError
| IndexError
| AssertionError.

Inductive result (A : Type) : Type :=
| Ok (a : A)
| Raise (e : PyError).

Arguments Ok {A} a.
Arguments Raise {A} e.

Definition bind {A B : Type} (m : result A) (k : A -> result B) : result B :=
  match m with
  | Ok a => k a
  | Raise e => Raise e
  end.

Notation "x <- m ;; k" := (bind m (fun x => k))
  (at level 61, m at next level, right associativity).

Definition is_ok {A : Type} (m : result A) : bool :=
  match m with
  | Ok _ => true
  | Raise _ => false
  end.

Module Py.

(** *** Characters *)

Definition ord (c : ascii) : N := N_of_ascii c.

Definition in_range (lo hi : N) (c : ascii) : bool :=
  ((lo <=? ord c) && (ord c <=? hi))%N.

Definition is_digit (c : ascii) : bool := in_range 48 57 c.
Definition is_upper (c : ascii) : bool := in_range 65 90 c.
Definition is_lower (c : ascii) : bool := in_range 97 122 c.

(** [c.lower()] and [c.upper()] on one ASCII character. *)
Definition lower_char (c : ascii) : ascii :=
  if is_upper c then ascii_of_N (ord c + 32) else c.

Definition upper_char (c : ascii) : ascii :=
  if is_lower c then ascii_of_N (ord c - 32) else c.

(** The white space [int()] skips around a literal: space, [\t], [\n],
    [\v], [\f], [\r] and, of the code points from 128 to 255, U+0085 and
    U+00A0.  The separators U+001C to U+001F are not skipped. *)
Definition is_space (c : ascii) : bool :=
  (ord c =? 32)%N || in_range 9 13 c || (ord c =? 133)%N || (ord c =? 160)%N.

(** The value of a digit in [int(s, base)]: [0-9], then [a-z] or [A-Z]
    counting from ten. *)
Definition digit_value (c : ascii) : option Z :=
  if is_digit c then Some (Z.of_N (ord c) - 48)%Z
  else if is_lower c then Some (Z.of_N (ord c) - 87)%Z
  else if is_upper c then Some (Z.of_N (ord c) - 55)%Z
  else None.

Definition hex_value (c : ascii) : option Z :=
  match digit_value c with
  | Some d => if (d <? 16)%Z then Some d else None
  | None => None
  end.

(** *** Strings *)

Fixpoint str_map (f : ascii -> ascii) (s : string) : string :=
  match s with
  | EmptyString => EmptyString
  | String c r => String (f c) (str_map f r)
  end.

(** [s.lower()] and [s.upper()]. *)
Definition lower (s : string) : string := str_map lower_char s.
Definition upper (s : string) : string := str_map upper_char s.

(** [c in s] for a one-character [c]. *)
Fixpoint char_in (c : ascii) (s : string) : bool :=
  match s with
  | EmptyString => false
  | String d r => Ascii.eqb c d || char_in c r
  end.

(** [s[i]] for [i >= 0]. *)
Definition index (s : string) (i : nat) : result ascii :=
  match String.get i s with
  | Some c => Ok c
  | None => Raise IndexError
  end.

(** [s[:n]] for [n >= 0]. *)
Fixpoint slice_to (n : nat) (s : string) : string :=
  match n, s with
  | S m, String c r => String c (slice_to m r)
  | _, _ => EmptyString
  end.

(** [s.replace(old, new)] for a non-empty [old]: a single scan from the left
    over non-overlapping occurrences.  [skip] counts the characters of a
    match that are still to be dropped. *)
Fixpoint replace_from (skip : nat) (old new s : string) : string :=
  match s with
  | EmptyString => EmptyString
  | String c r =>
      match skip with
      | S k => replace_from k old new r
      | O =>
          if String.prefix old s
          then new ++ replace_from (String.length old - 1) old new r
          else String c (replace_from 0 old new r)
      end
  end.

Definition replace (old new s : string) : string := replace_from 0 old new s.

(** *** [int(s, 16)] *)

Fixpoint skip_space (s : string) : string :=
  match s with
  | String c r => if is_space c then skip_space r else s
  | EmptyString => EmptyString
  end.

(** The digit loop of [int]: digits with single underscores between them.
    Returns the value, the number of digits read and the unread rest, or
    [None] on a doubled or trailing underscore. *)
Fixpoint scan_digits (s : string) (acc : Z) (n : nat) (prev_us : bool)
  : option (Z * nat * string) :=
  match s with
  | EmptyString => if prev_us then None else Some (acc, n, EmptyString)
  | String c r =>
      if Ascii.eqb c "_" then
        if prev_us then None else scan_digits r acc n true
      else
        match hex_value c with
        | Some d => scan_digits r (16 * acc + d)%Z (S n) false
        | None => if prev_us then None else Some (acc, n, s)
        end
  end.

Definition strip_sign (s : string) : bool * string :=
  match s with
  | String "+" r => (false, r)
  | String "-" r => (true, r)
  | _ => (false, s)
  end.

Definition strip_0x (s : string) : string :=
  match s with
  | String "0" (String c r) =>
      if Ascii.eqb c "x" || Ascii.eqb c "X" then
        match r with
        | String "_" r' => r'
        | _ => r
        end
      else s
  | _ => s
  end.

Definition int16 (s : string) : result Z :=
  let (neg, s2) := strip_sign (skip_space s) in
  let s3 := strip_0x s2 in
  match s3 with
  | String "_" _ => Raise ValueError
  | _ =>
      match scan_digits s3 0 0 false with
      | None => Raise ValueError
      | Some (v, n, rest) =>
          match n, skip_space rest with
          | S _, EmptyString => Ok (if neg then (- v)%Z else v)
          | _, _ => Raise ValueError
          end
      end
  end.

(** *** [str(n)] for an [int] *)

Definition str_of_int (n : Z) : string := NilZero.string_of_int (Z.to_int n).

(** *** [s.encode("utf-8")] on code points below 256 *)

Definition encode_char (c : ascii) : list N :=
  if (ord c <? 128)%N then [ord c]
  else [N.lor 192 (N.shiftr (ord c) 6); N.lor 128 (N.land (ord c) 63)].

Fixpoint encode_utf8 (s : string) : list N :=
  match s with
  | EmptyString => []
  | String c r => encode_char c ++ encode_utf8 r
  end.

End Py.

(** ** The Keccak sponge (hashlib.sha3_512 and the selector hash)

    [hashlib] belongs to Python's standard library; the sponge below follows
    FIPS 202 and is compared further down with published digests.  The state
    is 25 lanes of 64 bits, lane [(x, y)] at position [x + 5 * y].  Bytes and
    lanes are values of [N]. *)

Module Keccak.

Open Scope N_scope.

Definition mask64 : N := 0xFFFFFFFFFFFFFFFF.

Definition rotl64 (w r : N) : N :=
  N.land (N.lor (N.shiftl w r) (N.shiftr w (64 - r))) mask64.

Definition lane (st : list N) (x y : nat) : N :=
  nth ((x mod 5) + 5 * (y mod 5))%nat st 0.

Definition positions : list (nat * nat) :=
  flat_map (fun y => map (fun x => (x, y)) (seq 0 5)) (seq 0 5).

Definition round_constants : list N :=
  [ 0x0000000000000001; 0x0000000000008082; 0x800000000000808A;
    0x8000000080008000; 0x000000000000808B; 0x0000000080000001;
    0x8000000080008081; 0x8000000000008009; 0x000000000000008A;
    0x0000000000000088; 0x0000000080008009; 0x000000008000000A;
    0x000000008000808B; 0x800000000000008B; 0x8000000000008089;
    0x8000000000008003; 0x8000000000008002; 0x8000000000000080;
    0x000000000000800A; 0x800000008000000A; 0x8000000080008081;
    0x8000000000008080; 0x0000000080000001; 0x8000000080008008 ].

Definition rotation_offsets : list N :=
  [  0;  1; 62; 28; 27;
    36; 44;  6; 55; 20;
     3; 10; 43; 25; 39;
    41; 45; 15; 21;  8;
    18;  2; 61; 56; 14 ].

Definition theta (st : list N) : list N :=
  let c x := fold_left N.lxor (map (lane st x) (seq 0 5)) 0 in
  let d x := N.lxor (c (x + 4)%nat) (rotl64 (c (x + 1)%nat) 1) in
  map (fun '(x, y) => N.lxor (lane st x y) (d x)) positions.

Definition rho_pi (st : list N) : list N :=
  map (fun '(x, y) =>
         let x0 := ((x + 3 * y) mod 5)%nat in
         rotl64 (lane st x0 x) (nth (x0 + 5 * x)%nat rotation_offsets 0))
      positions.

Definition chi (st : list N) : list N :=
  map (fun '(x, y) =>
         N.lxor (lane st x y)
                (N.land (N.lxor (lane st (x + 1) y) mask64)
                        (lane st (x + 2) y)))
      positions.

Definition iota (rc : N) (st : list N) : list N :=
  match st with
  | a :: r => N.lxor a rc :: r
  | [] => []
  end.

Definition round (st : list N) (rc : N) : list N :=
  iota rc (chi (rho_pi (theta st))).

Definition keccak_f (st : list N) : list N :=
  fold_left round round_constants st.

(** Multi-rate padding: the domain suffix, zeros, and a final [0x80]. *)
Definition pad (rate : nat) (suffix : N) (msg : list N) : list N :=
  let fill := (rate - 1 - (List.length msg mod rate))%nat in
  match fill with
  | O => msg ++ [N.lor suffix 0x80]
  | S k => msg ++ suffix :: repeat 0 k ++ [0x80]
  end.

Fixpoint chunks (fuel n : nat) (l : list N) : list (list N) :=
  match fuel, l with
  | S f, _ :: _ => firstn n l :: chunks f n (skipn n l)
  | _, _ => []
  end.

(** Little-endian lanes of a block, and the bytes of a lane. *)
Fixpoint lanes_of_bytes (fuel : nat) (b : list N) : list N :=
  match fuel, b with
  | S f, _ :: _ =>
      fold_right (fun byte acc => byte + 256 * acc) 0 (firstn 8 b)
      :: lanes_of_bytes f (skipn 8 b)
  | _, _ => []
  end.

Fixpoint xor_lanes (st blk : list N) : list N :=
  match st, blk with
  | a :: st', b :: blk' => N.lxor a b :: xor_lanes st' blk'
  | _, [] => st
  | [], _ => []
  end.

Definition absorb (st : list N) (block : list N) : list N :=
  keccak_f (xor_lanes st (lanes_of_bytes (List.length block) block)).

Definition state_byte (st : list N) (i : nat) : N :=
  N.land (N.shiftr (nth (i / 8) st 0) (8 * N.of_nat (i mod 8))) 0xFF.

Definition sponge (rate : nat) (suffix : N) (outlen : nat) (msg : list N)
  : list N :=
  let padded := pad rate suffix msg in
  let st := fold_left absorb (chunks (List.length padded) rate padded)
                      (repeat 0 25) in
  map (state_byte st) (seq 0 outlen).

Definition sha3_512 (msg : list N) : list N := sponge 72 0x06 64 msg.
Definition keccak_256 (msg : list N) : list N := sponge 136 0x01 32 msg.

Definition hex_char (n : N) : ascii :=
  if n <? 10 then ascii_of_N (48 + n) else ascii_of_N (87 + n).

Fixpoint hex_of_bytes (b : list N) : string :=
  match b with
  | [] => EmptyString
  | x :: r => String (hex_char (x / 16)) (String (hex_char (x mod 16)) (hex_of_bytes r))
  end.

End Keccak.

(** [hashlib.sha3_512(data).hexdigest()] *)
Definition sha3_512_hexdigest (data : list N) : string :=
  Keccak.hex_of_bytes (Keccak.sha3_512 data).

(** ** Data model *)

Definition Address : Type := string.

(** One entry of the trace, a JSON object read through its ["event"] field.
    An entry with any other event name is skipped by the analyzer. *)
Inductive Event : Type :=
| ContractCreated (from : Address)
| FunctionCall (from to : Address) (data value gas_used gas_price : string)
| OtherEvent (name : string).

(** Modelled from the spec: the enumerations and the record of
    properties/properties.py ([PropertyType], [PropertyReturn],
    [PropertyCaller], [Property]), which auto.py imports.  The spec names a
    kind (code quality or correctness), an expected outcome (success or
    failure), a caller (ANY, OWNER, USER, ATTACKER) and the eight fields. *)
Inductive PropertyType : Type := CODE_QUALITY | CORRECTNESS.
Inductive PropertyReturn : Type := SUCCESS | FAILURE.
Inductive PropertyCaller : Type := ANY | OWNER | USER | ATTACKER.

Record Property : Type := mkProperty {
  name : string;
  description : string;
  content : string;
  type : PropertyType;
  return_type : PropertyReturn;
  is_unit_test : bool;
  is_property_test : bool;
  caller : PropertyCaller
}.

(** An [OrderedDict] with string keys: the items in insertion order.
    [d[k] = v] overwrites the value of a key that is present, in place, and
    appends a new key at the end. *)
Module OrderedDict.

Definition t (V : Type) : Type := list (string * V).

Definition empty {V : Type} : t V := [].

Fixpoint setitem {V : Type} (k : string) (v : V) (d : t V) : t V :=
  match d with
  | [] => [(k, v)]
  | (k', v') :: r =>
      if String.eqb k' k then (k', v) :: r else (k', v') :: setitem k v r
  end.

Fixpoint get {V : Type} (k : string) (d : t V) : option V :=
  match d with
  | [] => None
  | (k', v') :: r => if String.eqb k' k then Some v' else get k r
  end.

Definition items {V : Type} (d : t V) : list (string * V) := d.

Definition keys {V : Type} (d : t V) : list string := map fst d.

End OrderedDict.

(** A Python [set] of strings, as a duplicate-free list. *)
Fixpoint set_add (x : string) (s : list string) : list string :=
  match s with
  | [] => [x]
  | y :: r => if String.eqb y x then s else y :: set_add x r
  end.

(** ** checksum_encode *)

(** The loop over [enumerate(hex_addr)]: [nibble_index] is the position of the
    first character of [rest], [checksummed_buffer] the text built so far. *)
Fixpoint checksum_loop (hashed_address : string) (nibble_index : nat)
         (rest checksummed_buffer : string) : result string :=
  match rest with
  | EmptyString => Ok checksummed_buffer
  | String character rest' =>
      if Py.char_in character "0123456789" then
        checksum_loop hashed_address (S nibble_index) rest'
                      (checksummed_buffer ++ String character "")
      else if Py.char_in character "abcdef" then
        h <- Py.index hashed_address nibble_index ;;
        hashed_address_nibble <- Py.int16 (String h "") ;;
        if (7 <? hashed_address_nibble)%Z then
          checksum_loop hashed_address (S nibble_index) rest'
                        (checksummed_buffer ++ Py.upper (String character ""))
        else
          checksum_loop hashed_address (S nibble_index) rest'
                        (checksummed_buffer ++ String character "")
      else Raise AssertionError
  end.

Definition checksum_encode (hex_addr : string) : result string :=
  let hex_addr := Py.replace "0x" "" (Py.lower hex_addr) in
  let hashed_address := sha3_512_hexdigest (Py.encode_utf8 hex_addr) in
  checksummed_buffer <- checksum_loop hashed_address 0 hex_addr "" ;;
  Ok ("0x" ++ checksummed_buffer).

(** ** AUTO_token_max *)

Definition token_property (attacker_address token : Address) (max_balance : Z)
  : result Property :=
  t <- Py.int16 token ;;
  a <- Py.int16 attacker_address ;;
  Ok {| name := "crytic_attacker_cannot_get_tokens_more_than_"
                ++ Py.str_of_int max_balance ++ "_from_"
                ++ Py.replace "0x" "" token ++ "()";
        description := "The attacker address should not receive tokens.";
        content := String "010" (String "009" (String "009"
                     ("return HasBalance(address(" ++ Py.str_of_int t
                      ++ ")).balanceOf(address(" ++ Py.str_of_int a
                      ++ ")) <= " ++ Py.str_of_int max_balance ++ " ;")));
        type := CODE_QUALITY;
        return_type := SUCCESS;
        is_unit_test := false;
        is_property_test := true;
        caller := ANY |}.

Fixpoint AUTO_token_loop (attacker_address : Address)
         (items : list (string * Z)) (ps : list Property)
  : result (list Property) :=
  match items with
  | [] => Ok ps
  | (token, max_balance) :: rest =>
      p <- token_property attacker_address token max_balance ;;
      AUTO_token_loop attacker_address rest (ps ++ [p])
  end.

Definition AUTO_token_max (attacker_address : Address)
           (tokens : OrderedDict.t Z) : result (list Property) :=
  AUTO_token_loop attacker_address (OrderedDict.items tokens) [].

(** ** detect_token_props *)

(** Modelled from the spec: [get_function_id] of slither.utils.function, which
    auto.py imports: the hash of the canonical signature string, first 4
    bytes, big-endian. *)
Definition get_function_id (sig : string) : Z :=
  fold_left (fun acc b => (256 * acc + Z.of_N b)%Z)
            (firstn 4 (Keccak.keccak_256 (Py.encode_utf8 sig))) 0%Z.

Definition erc20_sigs : list Z :=
  [ get_function_id "transfer(address,uint256)";
    get_function_id "balanceOf(address)";
    get_function_id "approve(address,uint256)" ].

(** [x in l] for a list of integers. *)
Definition int_in (x : Z) (l : list Z) : bool := existsb (Z.eqb x) l.

(** The variables the scan updates. *)
Record scan_state : Type := mkScan {
  accounts : list Address;
  last_create : option nat;
  tokens : OrderedDict.t Z
}.

Definition scan_init : scan_state :=
  {| accounts := []; last_create := None; tokens := OrderedDict.empty |}.

(** The body of the loop at index [i]. *)
Definition scan_step (max_balance : Z) (st : scan_state) (i : nat) (tx : Event)
  : result scan_state :=
  match tx with
  | ContractCreated from =>
      Ok {| accounts := set_add from (accounts st);
            last_create := Some i;
            tokens := tokens st |}
  | FunctionCall from to data _ _ _ =>
      let addr := to in
      let accounts' := set_add from (accounts st) in
      let selector := Py.slice_to 10 data in
      sel <- Py.int16 selector ;;
      Ok {| accounts := accounts';
            last_create := last_create st;
            tokens := if int_in sel erc20_sigs
                      then OrderedDict.setitem addr max_balance (tokens st)
                      else tokens st |}
  | OtherEvent _ => Ok st
  end.

Fixpoint scan_loop (max_balance : Z) (st : scan_state) (i : nat)
         (txs : list Event) : result scan_state :=
  match txs with
  | [] => Ok st
  | tx :: rest =>
      st' <- scan_step max_balance st i tx ;;
      scan_loop max_balance st' (S i) rest
  end.

(** The returned tuple. *)
Record analysis : Type := mkAnalysis {
  an_accounts : list Address;
  an_tokens : OrderedDict.t Z;
  init_txs : list Event;
  samples_txs : list Event
}.

(** [last_create + 1] raises [TypeError] while [last_create] is [None].  The
    [slither] and [attacker_address] arguments are not read and the two
    [print] statements return nothing. *)
Definition detect_token_props (txs : list Event) (attacker_address : Address)
           (max_balance : option Z) : result analysis :=
  let max_balance := match max_balance with
                     | None => 0%Z
                     | Some m => m
                     end in
  st <- scan_loop max_balance scan_init 0 txs ;;
  match last_create st with
  | None => Raise TypeError
  | Some lc =>
      Ok {| an_accounts := accounts st;
            an_tokens := tokens st;
            init_txs := firstn (lc + 1) txs;
            samples_txs := skipn (lc + 1) txs |}
  end.

(** ** Predicates on inputs *)

Fixpoint all_chars (p : ascii -> bool) (s : string) : bool :=
  match s with
  | EmptyString => true
  | String c r => p c && all_chars p r
  end.

Definition is_lower_hex (c : ascii) : bool := Py.char_in c "0123456789abcdef".
Definition is_hex_digit (c : ascii) : bool :=
  Py.char_in c "0123456789abcdefABCDEF".

(** The lowercased, prefix-stripped form of an address string, as
    [checksum_encode] computes it. *)
Definition stripped (hex_addr : string) : string :=
  Py.replace "0x" "" (Py.lower hex_addr).

(** An address in canonical position: [0x] followed by hex digits. *)
Definition is_address (s : string) : bool :=
  match s with
  | String "0" (String "x" h) =>
      negb (String.eqb h "") && all_chars is_hex_digit h
  | _ => false
  end.

(** Call data as a blob of whole bytes: [0x] followed by an even number of
    hex digits. *)
Definition is_hex_blob (s : string) : bool :=
  match s with
  | String "0" (String "x" h) =>
      all_chars is_hex_digit h && Nat.even (String.length h)
  | _ => false
  end.

(** ** The checksum as the specification words it

    Digits are emitted unchanged; a letter is upper-cased when the digest
    nibble at the same index is greater than 7 and lower-cased otherwise. *)

Definition nibble_at (digest : string) (i : nat) : option Z :=
  match String.get i digest with
  | Some h => Py.hex_value h
  | None => None
  end.

Definition spec_case (digest : string) (i : nat) (c : ascii) : ascii :=
  if Py.is_digit c then c
  else match nibble_at digest i with
       | Some n => if (7 <? n)%Z then Py.upper_char c else Py.lower_char c
       | None => c
       end.

Fixpoint spec_case_from (digest : string) (i : nat) (s : string) : string :=
  match s with
  | EmptyString => EmptyString
  | String c r => String (spec_case digest i c) (spec_case_from digest (S i) r)
  end.

Definition spec_checksum (hex_addr : string) : string :=
  let h := stripped hex_addr in
  "0x" ++ spec_case_from (sha3_512_hexdigest (Py.encode_utf8 h)) 0 h.

(** ** The property records as the specification words them *)

(** The name built from the ceiling and the token address. *)
Definition property_name (token : Address) (max_balance : Z) : string :=
  "crytic_attacker_cannot_get_tokens_more_than_"
  ++ Py.str_of_int max_balance ++ "_from_" ++ Py.replace "0x" "" token ++ "()".

(** The assertion: the balance that the contract at [t] reports for the
    account [a] is at most [ceiling]. *)
Definition balance_assertion (t a ceiling : Z) : string :=
  "return HasBalance(address(" ++ Py.str_of_int t
  ++ ")).balanceOf(address(" ++ Py.str_of_int a
  ++ ")) <= " ++ Py.str_of_int ceiling ++ " ;".

(** The record that one [(token, ceiling)] item contributes. *)
Definition emitted (attacker_address : Address) (item : string * Z)
           (p : Property) : Prop :=
  token_property attacker_address (fst item) (snd item) = Ok p.

Definition newline : ascii := "010".
Definition tab : ascii := "009".

Definition is_decimal_char (c : ascii) : bool := Py.char_in c "-0123456789".

(** ** The trace analysis as the specification words it *)

Definition is_create (tx : Event) : bool :=
  match tx with
  | ContractCreated _ => true
  | _ => false
  end.

Definition is_call (tx : Event) : bool :=
  match tx with
  | FunctionCall _ _ _ _ _ _ => true
  | _ => false
  end.

(** The index of the last [ContractCreated] event. *)
Fixpoint last_create_index (txs : list Event) : option nat :=
  match txs with
  | [] => None
  | tx :: rest =>
      match last_create_index rest with
      | Some j => Some (S j)
      | None => if is_create tx then Some 0 else None
      end
  end.

(** The first ten characters of the call data read as a base-16 integer. *)
Definition selector_parses (tx : Event) : bool :=
  match tx with
  | FunctionCall _ _ data _ _ _ => is_ok (Py.int16 (Py.slice_to 10 data))
  | _ => true
  end.

(** The test of the analyzer on call data. *)
Definition is_erc20_data (data : string) : bool :=
  match Py.int16 (Py.slice_to 10 data) with
  | Ok sel => int_in sel erc20_sigs
  | Raise _ => false
  end.

(** The [to] addresses of the calls that pass the test, in trace order. *)
Definition matching_calls (txs : list Event) : list Address :=
  flat_map (fun tx => match tx with
                      | FunctionCall _ to data _ _ _ =>
                          if is_erc20_data data then [to] else []
                      | _ => []
                      end) txs.

(** The value of a string of hex digits, most significant first. *)
Fixpoint hex_number (s : string) (acc : Z) : option Z :=
  match s with
  | EmptyString => Some acc
  | String c r =>
      match Py.hex_value c with
      | Some d => hex_number r (16 * acc + d)%Z
      | None => None
      end
  end.

(** The leading four bytes of a blob, big-endian. *)
Definition leading_selector (data : string) : option Z :=
  match data with
  | String "0" (String "x" body) =>
      if Nat.leb 8 (String.length body) then hex_number (Py.slice_to 8 body) 0
      else None
  | _ => None
  end.

(** The selectors of [transfer(address,uint256)], [balanceOf(address)] and
    [approve(address,uint256)]. *)
Definition token_selectors : list Z := [0xa9059cbb; 0x70a08231; 0x095ea7b3]%Z.

Definition selector_matches (data : string) : bool :=
  match leading_selector data with
  | Some sel => int_in sel token_selectors
  | None => false
  end.

(** A list of addresses without its repetitions, in first-seen order. *)
Fixpoint first_seen (l : list Address) : list Address :=
  match l with
  | [] => []
  | x :: r => x :: filter (fun y => negb (String.eqb y x)) (first_seen r)
  end.

Definition seen (a : Address) (l : list Address) : bool :=
  existsb (String.eqb a) l.

(** The items of a map that gives every key of [l] the same ceiling. *)
Definition with_ceiling (c : Z) (l : list Address) : list (string * Z) :=
  map (fun a => (a, c)) l.

Definition ceiling_of (max_balance : option Z) : Z :=
  match max_balance with
  | None => 0%Z
  | Some m => m
  end.

(** ** More Python built-ins *)

Module PyExt.

(** The hex digits of [n], most significant first; [fuel] bounds the number
    of digits. *)
Fixpoint hex_digits (fuel : nat) (n : N) : string :=
  match fuel with
  | O => EmptyString
  | S f =>
      if (n <? 16)%N then String (Keccak.hex_char n) EmptyString
      else hex_digits f (n / 16) ++ String (Keccak.hex_char (n mod 16)) EmptyString
  end.

(** [hex(n)]: ["0x"] and the digits of [n], after a minus sign when [n] is
    negative.  A number has no more hex digits than bits. *)
Definition hex (n : Z) : string :=
  let m := Z.abs_N n in
  (if (n <? 0)%Z then "-" else "")
  ++ "0x" ++ hex_digits (S (N.to_nat (N.log2 m))) m.

(** [s * n] for [n >= 0]; the callers compute [n] as a difference, which
    Python floors at the empty string and [nat] floors at zero. *)
Fixpoint repeat (s : string) (n : nat) : string :=
  match n with
  | O => EmptyString
  | S k => s ++ repeat s k
  end.

(** [sep.join(l)]. *)
Fixpoint join (sep : string) (l : list string) : string :=
  match l with
  | [] => EmptyString
  | [x] => x
  | x :: r => x ++ sep ++ join sep r
  end.

(** [s in l] for a list of strings. *)
Definition str_in (s : string) (l : list string) : bool :=
  existsb (String.eqb s) l.

End PyExt.

(** ** encode_transfer *)

Definition encode_transfer (sig : string) (f t c : Address) (v : Z) : Event :=
  let sel := get_function_id sig in
  let sel := Py.replace "0x" "" (PyExt.hex sel) in
  let sel := PyExt.repeat "0" (8 - String.length sel) ++ sel in
  let t := Py.replace "0x" "" (Py.lower t) in
  let t := PyExt.repeat "0" (64 - String.length t) ++ t in
  let v := Py.replace "0x" "" (PyExt.hex v) in
  let v := PyExt.repeat "0" (64 - String.length v) ++ v in
  let data := "0x" ++ sel ++ t ++ v in
  FunctionCall f c data "0x0" "0x1" "0x1".

(** ** _initialization_recommendation *)

Definition _initialization_recommendation (type_property : string) : string :=
  let content := "" in
  let content := content ++ String tab (String tab
                   ("// Add below a minimal configuration:"
                    ++ String newline "")) in
  let content := content ++ String tab (String tab
                   ("// - crytic_owner must have some tokens "
                    ++ String newline "")) in
  let content := content ++ String tab (String tab
                   ("// - crytic_user must have some tokens "
                    ++ String newline "")) in
  let content := content ++ String tab (String tab
                   ("// - crytic_attacker must have some tokens "
                    ++ String newline "")) in
  let content :=
    if PyExt.str_in type_property ["Pausable"]
    then content ++ String tab (String tab
           ("// - The contract must be paused " ++ String newline ""))
    else content in
  let content :=
    if PyExt.str_in type_property ["NotMintable"; "NotMintableNotBurnable"]
    then content ++ String tab (String tab
           ("// - The contract must not be mintable " ++ String newline ""))
    else content in
  let content :=
    if PyExt.str_in type_property ["NotBurnable"; "NotMintableNotBurnable"]
    then content ++ String tab (String tab
           ("// - The contract must not be burnable " ++ String newline ""))
    else content in
  let content := content ++ String newline "" in
  let content := content ++ String newline "" in
  content.

(** ** _check_compatibility *)

(** Modelled from the spec: the contract model that slither hands to
    [_check_compatibility], an opaque object with the queries "is this
    ERC-20-compliant", "function by canonical signature" and "function
    visibility".  [contract_str] is what [str(contract)] gives, and a
    signature that the contract lacks is looked up as [None]. *)
Record Function : Type := mkFunction {
  visibility : string;
  canonical_name : string
}.

Record Contract : Type := mkContract {
  contract_str : string;
  is_erc20 : bool;
  get_function_from_signature : string -> option Function
}.

Definition requires_public (f : Function) : string :=
  "slither-prop requires " ++ canonical_name f
  ++ " to be public. Please change the visibility".

(** Reading [.visibility] of [None] raises [AttributeError]; the result is
    [None] in that case and [Some errors] when the function returns. *)
Definition _check_compatibility (contract : Contract) : option string :=
  let errors := "" in
  if negb (is_erc20 contract) then
    Some (contract_str contract
          ++ " is not ERC20 compliant. Consider checking the contract with slither-check-erc")
  else
    match get_function_from_signature contract "transfer(address,uint256)" with
    | None => None
    | Some transfer =>
        let errors :=
          if negb (String.eqb (visibility transfer) "public")
          then requires_public transfer
          else errors in
        match get_function_from_signature
                contract "transferFrom(address,address,uint256)" with
        | None => None
        | Some transfer_from =>
            let errors :=
              if negb (String.eqb (visibility transfer_from) "public")
              then (if negb (String.eqb errors "")
                    then errors ++ String newline ""
                    else errors) ++ requires_public transfer_from
              else errors in
            match get_function_from_signature
                    contract "approve(address,uint256)" with
            | None => None
            | Some approve =>
                let errors :=
                  if negb (String.eqb (visibility approve) "public")
                  then (if negb (String.eqb errors "")
                        then errors ++ String newline ""
                        else errors) ++ requires_public approve
                  else errors in
                Some errors
            end
        end
    end.

(** ** _get_properties *)

(** [property_to_solidity] comes from properties/properties.py and is taken
    as a parameter; the [slither] argument is not read. *)
Definition _get_properties (property_to_solidity : Property -> string)
           (properties : list Property) : string * list Property :=
  let solidity_properties := "" in
  let solidity_properties :=
    solidity_properties
    ++ PyExt.join (String newline "") (map property_to_solidity properties) in
  let unit_tests := filter is_unit_test properties in
  (solidity_properties, unit_tests).

(** ** Predicates for the properties of the uncited code *)

Definition is_ascii (c : ascii) : bool := (Py.ord c <? 128)%N.

(** The characters of a Solidity identifier. *)
Definition is_identifier_char (c : ascii) : bool :=
  Py.is_digit c || Py.is_lower c || Py.is_upper c || Ascii.eqb c "_".

(** The [from] address of an event that the analyzer reads. *)
Definition sender (tx : Event) : list Address :=
  match tx with
  | ContractCreated from => [from]
  | FunctionCall from _ _ _ _ _ => [from]
  | OtherEvent _ => []
  end.

(** The lines of a text, split at newline characters. *)
Fixpoint lines_from (cur : string) (s : string) : list string :=
  match s with
  | EmptyString => [cur]
  | String c r =>
      if Ascii.eqb c newline then cur :: lines_from "" r
      else lines_from (cur ++ String c "") r
  end.

Definition lines (s : string) : list string := lines_from "" s.

Definition is_comment_line (l : string) : bool :=
  String.eqb l "" || String.prefix (String tab (String tab "//")) l.

Definition is_public (f : Function) : bool := String.eqb (visibility f) "public".

(** ** Strings: basic facts *)

Section StringFacts.

Lemma append_nil_r (s : string) : s ++ "" = s.
Proof. induction s as [|c s IH]; simpl; [reflexivity | now rewrite IH]. Qed.

Lemma append_assoc (a b c : string) : (a ++ b) ++ c = a ++ (b ++ c).
Proof. induction a as [|x a IH]; simpl; [reflexivity | now rewrite IH]. Qed.

Lemma append_length (a b : string) :
  String.length (a ++ b) = String.length a + String.length b.
Proof. induction a as [|x a IH]; simpl; [reflexivity | now rewrite IH]. Qed.

Lemma append_inv_head (a x y : string) : a ++ x = a ++ y -> x = y.
Proof.
  induction a as [|c a IH]; simpl; intros H; [exact H|].
  injection H as H. auto.
Qed.

Lemma append_inv_tail (x a b : string) : a ++ x = b ++ x -> a = b.
Proof.
  revert b. induction a as [|c a IH]; intros [|d b] H; simpl in H.
  - reflexivity.
  - apply (f_equal String.length) in H. simpl in H.
    rewrite append_length in H. lia.
  - apply (f_equal String.length) in H. simpl in H.
    rewrite append_length in H. lia.
  - injection H as -> H. f_equal. auto.
Qed.

Lemma all_chars_append p (a b : string) :
  all_chars p (a ++ b) = all_chars p a && all_chars p b.
Proof.
  induction a as [|c a IH]; simpl; [reflexivity|].
  now rewrite IH, andb_assoc.
Qed.

Lemma all_chars_impl (p q : ascii -> bool) (s : string) :
  (forall c, p c = true -> q c = true) ->
  all_chars p s = true -> all_chars q s = true.
Proof.
  intros Hpq. induction s as [|c s IH]; simpl; [reflexivity|].
  rewrite !andb_true_iff. intros [Hc Hs]. auto.
Qed.

Lemma all_chars_get p (s : string) (i : nat) (c : ascii) :
  all_chars p s = true -> String.get i s = Some c -> p c = true.
Proof.
  revert i. induction s as [|d s IH]; intros i; simpl; [discriminate|].
  rewrite andb_true_iff. intros [Hd Hs].
  destruct i as [|i]; [intros [= <-]; exact Hd | eauto].
Qed.

Lemma get_some (s : string) (i : nat) :
  i < String.length s -> exists c, String.get i s = Some c.
Proof.
  revert i. induction s as [|d s IH]; intros i; simpl; [lia|].
  destruct i as [|i]; [eauto | intros H; apply IH; lia].
Qed.

Lemma char_in_In (c : ascii) (s : string) :
  Py.char_in c s = true -> In c (list_ascii_of_string s).
Proof.
  induction s as [|d s IH]; simpl; [discriminate|].
  rewrite orb_true_iff. intros [H|H].
  - left. symmetry. now apply Ascii.eqb_eq.
  - right. auto.
Qed.

Lemma str_map_length f (s : string) :
  String.length (Py.str_map f s) = String.length s.
Proof. induction s as [|c s IH]; simpl; [reflexivity | now rewrite IH]. Qed.

Lemma str_map_append f (a b : string) :
  Py.str_map f (a ++ b) = Py.str_map f a ++ Py.str_map f b.
Proof. induction a as [|c a IH]; simpl; [reflexivity | now rewrite IH]. Qed.

End StringFacts.

(** Splits a membership in a literal string into its cases. *)
Ltac char_cases H :=
  apply char_in_In in H; simpl in H;
  repeat (destruct H as [H|H]; [subst|]); try contradiction.

(** ** [str.replace("0x", "")] *)

Section Replace.

Lemma replace_no_x (s : string) :
  Py.char_in "x" s = false -> Py.replace "0x" "" s = s.
Proof.
  unfold Py.replace.
  induction s as [|c s IH]; [reflexivity|].
  intros H. cbn [Py.char_in] in H. apply orb_false_iff in H as [Hc Hs].
  cbn [Py.replace_from].
  assert (Hp : String.prefix "0x" (String c s) = false).
  { cbn [String.prefix]. destruct (ascii_dec "0" c) as [_|_]; [|reflexivity].
    destruct s as [|d s]; cbn [String.prefix]; [reflexivity|].
    cbn [Py.char_in] in Hs. apply orb_false_iff in Hs as [Hd _].
    destruct (ascii_dec "x" d) as [<-|_]; [|reflexivity].
    now rewrite Ascii.eqb_refl in Hd. }
  rewrite Hp. f_equal. auto.
Qed.

Lemma replace_0x_head (h : string) :
  Py.replace "0x" "" (String "0" (String "x" h)) = Py.replace "0x" "" h.
Proof. destruct h; reflexivity. Qed.

Lemma hex_no_x (h : string) :
  all_chars is_hex_digit h = true -> Py.char_in "x" h = false.
Proof.
  induction h as [|c h IH]; simpl; [reflexivity|].
  rewrite andb_true_iff. intros [Hc Hh].
  rewrite (IH Hh), orb_false_r.
  unfold is_hex_digit in Hc. char_cases Hc; reflexivity.
Qed.

Lemma lower_hex_is_hex (c : ascii) :
  is_lower_hex c = true -> is_hex_digit c = true.
Proof. intros H. unfold is_lower_hex in H. char_cases H; reflexivity. Qed.

Lemma lower_hex_no_x (h : string) :
  all_chars is_lower_hex h = true -> Py.char_in "x" h = false.
Proof.
  intros H. apply hex_no_x.
  revert H. apply all_chars_impl, lower_hex_is_hex.
Qed.

End Replace.

(** ** The digest is 128 lower-case hex digits *)

Section Digest.

Lemma hex_char_lower_hex (n : N) :
  (n < 16)%N -> is_lower_hex (Keccak.hex_char n) = true.
Proof.
  intros H. destruct n as [|p]; [reflexivity|].
  do 4 (try destruct p as [p|p|]); try reflexivity; lia.
Qed.

Lemma hex_of_bytes_length (l : list N) :
  String.length (Keccak.hex_of_bytes l) = 2 * List.length l.
Proof. induction l as [|x l IH]; simpl; [reflexivity | rewrite IH; lia]. Qed.

Lemma hex_of_bytes_lower_hex (l : list N) :
  Forall (fun x => (x < 256)%N) l ->
  all_chars is_lower_hex (Keccak.hex_of_bytes l) = true.
Proof.
  induction 1 as [|x l Hx _ IH]; [reflexivity|].
  cbn [Keccak.hex_of_bytes all_chars].
  rewrite IH, andb_true_r, andb_true_iff. split.
  - apply hex_char_lower_hex.
    apply N.Div0.div_lt_upper_bound. exact Hx.
  - apply hex_char_lower_hex. now apply N.mod_lt.
Qed.

Lemma state_byte_bound (st : list N) (i : nat) :
  (Keccak.state_byte st i < 256)%N.
Proof.
  unfold Keccak.state_byte.
  change 255%N with (N.ones 8). rewrite N.land_ones.
  now apply N.mod_lt.
Qed.

Lemma sponge_bytes rate suffix outlen msg :
  Forall (fun x => (x < 256)%N) (Keccak.sponge rate suffix outlen msg).
Proof.
  unfold Keccak.sponge. apply Forall_forall. intros x Hx.
  apply in_map_iff in Hx as [i [<- _]]. apply state_byte_bound.
Qed.

Lemma sponge_length rate suffix outlen msg :
  List.length (Keccak.sponge rate suffix outlen msg) = outlen.
Proof. unfold Keccak.sponge. now rewrite length_map, length_seq. Qed.

Lemma sha3_512_hexdigest_length (data : list N) :
  String.length (sha3_512_hexdigest data) = 128.
Proof.
  unfold sha3_512_hexdigest, Keccak.sha3_512.
  now rewrite hex_of_bytes_length, sponge_length.
Qed.

Lemma sha3_512_hexdigest_lower_hex (data : list N) :
  all_chars is_lower_hex (sha3_512_hexdigest data) = true.
Proof. apply hex_of_bytes_lower_hex, sponge_bytes. Qed.

(** The digests of the empty message and of ["abc"] (FIPS 202). *)
Example sha3_512_empty :
  sha3_512_hexdigest (Py.encode_utf8 "") =
  "a69f73cca23a9ac5c8b567dc185a756e97c982164fe25859e0d1dcc1475c80a615b2123af1f5f94c11e3e9402c3ac558f500199d95b6d3e301758586281dcd26".
Proof. vm_compute. reflexivity. Qed.

Example sha3_512_abc :
  sha3_512_hexdigest (Py.encode_utf8 "abc") =
  "b751850b1a57168a5693cd924b6b096e08f621827444f70d884f5d0240d2712e10e116e9192af3c91a7ec57647e3934057340b4cf408d5a56592f8274eec53f0".
Proof. vm_compute. reflexivity. Qed.

(** [int(c, 16)] on one lower-case hex digit is its nibble value. *)
Lemma int16_lower_hex (c : ascii) :
  is_lower_hex c = true ->
  exists n, Py.hex_value c = Some n /\ Py.int16 (String c "") = Ok n.
Proof.
  intros H. unfold is_lower_hex in H.
  char_cases H; eexists; split; reflexivity.
Qed.

End Digest.

(** ** checksum_encode: what the loop builds *)

Section Checksum.

Lemma digit_is_digit (c : ascii) :
  Py.char_in c "0123456789" = Py.is_digit c.
Proof. destruct c as [[] [] [] [] [] [] [] []]; reflexivity. Qed.

Lemma letter_facts (c : ascii) :
  Py.char_in c "abcdef" = true ->
  Py.is_digit c = false /\ Py.lower_char c = c /\ is_lower_hex c = true /\
  Py.lower_char (Py.upper_char c) = c.
Proof. intros H. char_cases H; repeat split; reflexivity. Qed.

Lemma digit_facts (c : ascii) :
  Py.is_digit c = true ->
  Py.lower_char c = c /\ is_lower_hex c = true.
Proof.
  rewrite <- digit_is_digit. intros H. char_cases H; split; reflexivity.
Qed.

Lemma lower_hex_split (c : ascii) :
  is_lower_hex c = true ->
  Py.char_in c "0123456789" = true \/
  (Py.char_in c "0123456789" = false /\ Py.char_in c "abcdef" = true).
Proof.
  intros H. unfold is_lower_hex in H.
  char_cases H; (left; reflexivity) || (right; split; reflexivity).
Qed.

(** On lower-case hex input that the digest covers, the loop appends the
    cased text to the buffer. *)
Lemma checksum_loop_spec (dg : string) :
  all_chars is_lower_hex dg = true ->
  forall (r : string) (i : nat) (buf : string),
    all_chars is_lower_hex r = true ->
    i + String.length r <= String.length dg ->
    checksum_loop dg i r buf = Ok (buf ++ spec_case_from dg i r).
Proof.
  intros Hdg. induction r as [|c r IH]; intros i buf Hr Hlen.
  - simpl. now rewrite append_nil_r.
  - cbn [all_chars] in Hr. apply andb_true_iff in Hr as [Hc Hr].
    cbn [String.length] in Hlen.
    cbn [checksum_loop spec_case_from]. unfold spec_case.
    destruct (lower_hex_split c Hc) as [Hd | [Hd Hl]]; rewrite Hd.
    + rewrite IH by (auto; lia).
      rewrite append_assoc. rewrite <- digit_is_digit, Hd. reflexivity.
    + rewrite Hl. rewrite <- digit_is_digit, Hd.
      destruct (get_some dg i ltac:(lia)) as [h Hh].
      unfold Py.index, nibble_at. rewrite Hh. cbn [bind].
      destruct (int16_lower_hex h (all_chars_get _ _ _ _ Hdg Hh))
        as [n [Hv Hn]].
      rewrite Hn, Hv. cbn [bind].
      destruct (letter_facts c Hl) as [_ [Hlow _]].
      destruct (7 <? n)%Z; rewrite IH by (auto; lia);
        rewrite append_assoc; [reflexivity | now rewrite Hlow].
Qed.

(** Whatever the loop returns extends the buffer by a text that lower-cases
    to the input, and the input was lower-case hex. *)
Lemma checksum_loop_ok (dg : string) :
  forall (r : string) (i : nat) (buf out : string),
    checksum_loop dg i r buf = Ok out ->
    exists t, out = buf ++ t /\ Py.lower t = r /\
              all_chars is_lower_hex r = true.
Proof.
  induction r as [|c r IH]; intros i buf out H.
  - simpl in H. injection H as <-. exists "". now rewrite append_nil_r.
  - cbn [checksum_loop] in H.
    destruct (Py.char_in c "0123456789") eqn:Hd.
    + apply IH in H as [t [-> [Ht Hr]]].
      rewrite digit_is_digit in Hd. destruct (digit_facts c Hd) as [Hlow Hhex].
      exists (String c t). rewrite append_assoc. repeat split.
      * unfold Py.lower in *. cbn [Py.str_map]. now rewrite Hlow, Ht.
      * cbn [all_chars]. now rewrite Hhex, Hr.
    + destruct (Py.char_in c "abcdef") eqn:Hl; [|discriminate].
      destruct (letter_facts c Hl) as [_ [Hlow [Hhex Hup]]].
      destruct (Py.index dg i) as [h|]; [|discriminate]. cbn [bind] in H.
      destruct (Py.int16 (String h "")) as [n|]; [|discriminate].
      cbn [bind] in H.
      destruct (7 <? n)%Z; apply IH in H as [t [-> [Ht Hr]]].
      * exists (String (Py.upper_char c) t). rewrite append_assoc.
        repeat split.
        -- unfold Py.lower in *. cbn [Py.str_map]. now rewrite Hup, Ht.
        -- cbn [all_chars]. now rewrite Hhex, Hr.
      * exists (String c t). rewrite append_assoc. repeat split.
        -- unfold Py.lower in *. cbn [Py.str_map]. now rewrite Hlow, Ht.
        -- cbn [all_chars]. now rewrite Hhex, Hr.
Qed.

Lemma spec_case_from_lower (dg : string) (r : string) (i : nat) :
  all_chars is_lower_hex r = true ->
  Py.lower (spec_case_from dg i r) = r.
Proof.
  revert i. induction r as [|c r IH]; intros i Hr; [reflexivity|].
  cbn [all_chars] in Hr. apply andb_true_iff in Hr as [Hc Hr].
  unfold Py.lower in *. cbn [spec_case_from Py.str_map].
  rewrite IH by assumption. f_equal.
  unfold spec_case.
  destruct (lower_hex_split c Hc) as [Hd | [Hd Hl]];
    rewrite digit_is_digit in Hd; rewrite Hd.
  - now destruct (digit_facts c Hd).
  - destruct (letter_facts c Hl) as [_ [Hlow [_ Hup]]].
    destruct (nibble_at dg i) as [n|]; [|exact Hlow].
    destruct (7 <? n)%Z; [exact Hup|].
    now rewrite Hlow.
Qed.

Lemma spec_case_from_length (dg : string) (r : string) (i : nat) :
  String.length (spec_case_from dg i r) = String.length r.
Proof.
  revert i. induction r as [|c r IH]; intros i; simpl;
    [reflexivity | now rewrite IH].
Qed.

(** The output of [checksum_encode] has the stripped form of its input. *)
Lemma stripped_0x_lower (t h : string) :
  Py.lower t = h -> all_chars is_lower_hex h = true ->
  stripped ("0x" ++ t) = h.
Proof.
  intros Ht Hh. unfold stripped.
  change (Py.lower ("0x" ++ t)) with (String "0" (String "x" (Py.lower t))).
  rewrite replace_0x_head, Ht.
  apply replace_no_x, lower_hex_no_x, Hh.
Qed.

End Checksum.

Section ChecksumEncode.

Lemma checksum_encode_stripped (a b : string) :
  stripped a = stripped b -> checksum_encode a = checksum_encode b.
Proof.
  intros H. unfold checksum_encode.
  change (Py.replace "0x" "" (Py.lower a)) with (stripped a).
  change (Py.replace "0x" "" (Py.lower b)) with (stripped b).
  now rewrite H.
Qed.

Lemma checksum_encode_returns (hex_addr : string) :
  all_chars is_lower_hex (stripped hex_addr) = true ->
  String.length (stripped hex_addr) <= 128 ->
  checksum_encode hex_addr = Ok (spec_checksum hex_addr).
Proof.
  intros Hhex Hlen. unfold checksum_encode, spec_checksum.
  change (Py.replace "0x" "" (Py.lower hex_addr)) with (stripped hex_addr).
  rewrite checksum_loop_spec.
  - reflexivity.
  - apply sha3_512_hexdigest_lower_hex.
  - exact Hhex.
  - rewrite sha3_512_hexdigest_length. simpl. exact Hlen.
Qed.

Lemma spec_checksum_stripped (hex_addr : string) :
  all_chars is_lower_hex (stripped hex_addr) = true ->
  stripped (spec_checksum hex_addr) = stripped hex_addr.
Proof.
  intros Hhex. unfold spec_checksum.
  apply stripped_0x_lower; [|exact Hhex].
  now apply spec_case_from_lower.
Qed.

(** C6: for an address string whose lowercased, prefix-stripped form [h] is
    made of [0-9a-f] only (and is no longer than the 128 nibbles of the
    digest, as every 40-digit address is), [checksum_encode] returns ["0x"]
    followed by the characters of [h], each digit unchanged and each letter
    upper-cased exactly when the nibble of the SHA3-512 hex digest of the
    UTF-8 bytes of [h] at the same index is greater than 7. *)
Theorem checksum_encode_casing (hex_addr : string) :
  all_chars is_lower_hex (stripped hex_addr) = true ->
  String.length (stripped hex_addr) <= 128 ->
  checksum_encode hex_addr =
  Ok ("0x" ++ spec_case_from
                (sha3_512_hexdigest (Py.encode_utf8 (stripped hex_addr))) 0
                (stripped hex_addr)).
Proof. exact (checksum_encode_returns hex_addr). Qed.

Lemma checksum_encode_casing_witness :
  let a := "0x5aAeb6053F3E94C9b9A09f33669435E7Ef1BeAed" in
  all_chars is_lower_hex (stripped a) = true /\
  String.length (stripped a) <= 128 /\
  checksum_encode a = Ok "0x5Aaeb6053F3e94c9B9a09F33669435E7Ef1bEAEd".
Proof.
  split; [reflexivity|]. split; [vm_compute; lia|].
  rewrite (checksum_encode_casing "0x5aAeb6053F3E94C9b9A09f33669435E7Ef1BeAed");
    [vm_compute; reflexivity | reflexivity | vm_compute; lia].
Defined.

(** C7: on a valid hex address string, encoding the output of
    [checksum_encode] again returns that same output. *)
Theorem checksum_encode_idempotent (hex_addr : string) :
  all_chars is_lower_hex (stripped hex_addr) = true ->
  String.length (stripped hex_addr) <= 128 ->
  exists out, checksum_encode hex_addr = Ok out /\
              checksum_encode out = Ok out.
Proof.
  intros Hhex Hlen. exists (spec_checksum hex_addr).
  pose proof (checksum_encode_returns hex_addr Hhex Hlen) as H.
  split; [exact H|].
  rewrite <- H.
  apply checksum_encode_stripped, spec_checksum_stripped, Hhex.
Qed.

Lemma checksum_encode_idempotent_witness :
  let a := "5AAEB6053F3E94C9B9A09F33669435E7EF1BEAED" in
  all_chars is_lower_hex (stripped a) = true /\
  String.length (stripped a) <= 128 /\
  exists out, checksum_encode a = Ok out /\ checksum_encode out = Ok out.
Proof.
  split; [reflexivity|]. split; [vm_compute; lia|].
  apply (checksum_encode_idempotent "5AAEB6053F3E94C9B9A09F33669435E7EF1BEAED");
    [reflexivity | vm_compute; lia].
Defined.

(** C10, as stated, fails: on 129 hex characters with a letter at index 128
    the digest, which has 128 nibbles, is indexed out of range. *)
Lemma long_input_raises :
  let a := "00000000000000000000000000000000000000000000000000000000000000000000000000000000000000000000000000000000000000000000000000000000a" in
  all_chars is_lower_hex (stripped a) = true /\
  String.length (stripped a) = 129 /\
  checksum_encode a = Raise IndexError.
Proof. repeat split; vm_compute; reflexivity. Qed.

(** C10, amended: on an input whose lowercased, prefix-stripped form is made
    of [0-9a-f] only and has at most 128 characters, [checksum_encode]
    changes nothing but the case of letters: lowercasing the output and
    stripping its [0x] gives back the lowercased, prefix-stripped input, and
    the output is two characters longer than that. *)
Theorem checksum_encode_case_only (hex_addr : string) :
  all_chars is_lower_hex (stripped hex_addr) = true ->
  String.length (stripped hex_addr) <= 128 ->
  exists out, checksum_encode hex_addr = Ok out /\
              Py.lower out = "0x" ++ stripped hex_addr /\
              Py.replace "0x" "" (Py.lower out) = stripped hex_addr /\
              String.length out = String.length (stripped hex_addr) + 2.
Proof.
  intros Hhex Hlen. exists (spec_checksum hex_addr).
  split; [now apply checksum_encode_returns|].
  split; [|split].
  - unfold spec_checksum.
    change (Py.lower ("0x" ++ ?t)) with (String "0" (String "x" (Py.lower t))).
    now rewrite spec_case_from_lower.
  - now apply spec_checksum_stripped.
  - unfold spec_checksum. rewrite append_length, spec_case_from_length.
    simpl. lia.
Qed.

Lemma checksum_encode_case_only_witness :
  let a := "0xDeadBeef00000000000000000000000000000001" in
  all_chars is_lower_hex (stripped a) = true /\
  String.length (stripped a) <= 128 /\
  exists out, checksum_encode a = Ok out /\
              Py.lower out = "0x" ++ stripped a /\
              Py.replace "0x" "" (Py.lower out) = stripped a /\
              String.length out = String.length (stripped a) + 2.
Proof.
  split; [reflexivity|]. split; [vm_compute; lia|].
  apply (checksum_encode_case_only
           "0xDeadBeef00000000000000000000000000000001");
    [reflexivity | vm_compute; lia].
Defined.

End ChecksumEncode.

(** ** [int(s, 16)] and [str(n)] on well-formed text *)

Section Literals.

Lemma hex_digit_value (c : ascii) :
  is_hex_digit c = true ->
  exists d, Py.hex_value c = Some d /\ (0 <= d < 16)%Z /\
            Ascii.eqb c "_" = false /\ Py.is_space c = false.
Proof.
  intros H. unfold is_hex_digit in H.
  char_cases H; eexists; (split; [reflexivity|]);
    (split; [vm_compute; split; [discriminate | reflexivity]|]);
    split; reflexivity.
Qed.

Lemma scan_digits_hex (h : string) :
  all_chars is_hex_digit h = true ->
  forall acc n, Py.scan_digits h acc n false =
                match hex_number h acc with
                | Some v => Some (v, n + String.length h, "")
                | None => None
                end /\ hex_number h acc <> None.
Proof.
  induction h as [|c h IH]; intros Hh acc n.
  - simpl. rewrite Nat.add_0_r. split; [reflexivity | discriminate].
  - cbn [all_chars] in Hh. apply andb_true_iff in Hh as [Hc Hh].
    destruct (hex_digit_value c Hc) as [d [Hd [_ [Hus _]]]].
    cbn [Py.scan_digits hex_number String.length]. rewrite Hus, Hd.
    destruct (IH Hh (16 * acc + d)%Z (S n)) as [E NE].
    rewrite E. split; [|exact NE].
    destruct (hex_number h (16 * acc + d)); [|reflexivity].
    now rewrite Nat.add_succ_r.
Qed.

(** A [0x]-prefixed, non-empty string of hex digits is read as its value. *)
Lemma int16_0x (h : string) :
  all_chars is_hex_digit h = true -> h <> "" ->
  exists v, hex_number h 0 = Some v /\
            Py.int16 (String "0" (String "x" h)) = Ok v.
Proof.
  intros Hh Hne.
  destruct (scan_digits_hex h Hh 0%Z 0) as [E NE].
  destruct (hex_number h 0) as [v|] eqn:Hv; [|congruence].
  exists v. split; [reflexivity|].
  destruct h as [|c h]; [congruence|].
  pose proof Hh as Hc. cbn [all_chars] in Hc.
  apply andb_true_iff in Hc as [Hc _].
  destruct (hex_digit_value c Hc) as [d [_ [_ [Hus _]]]].
  unfold Py.int16.
  change (Py.skip_space (String "0" (String "x" (String c h))))
    with (String "0" (String "x" (String c h))).
  cbn [Py.strip_sign].
  assert (Hs : Py.strip_0x (String "0" (String "x" (String c h)))
               = String c h).
  { cbn. destruct c as [[] [] [] [] [] [] [] []];
      try reflexivity; discriminate. }
  change (Py.strip_sign (String "0" (String "x" (String c h))))
    with (false, String "0" (String "x" (String c h))).
  cbv beta iota. rewrite Hs.
  rewrite E. cbn [String.length Nat.add Py.skip_space].
  destruct c as [[] [] [] [] [] [] [] []]; try reflexivity; discriminate.
Qed.

Lemma address_int16 (s : string) :
  is_address s = true -> exists v, Py.int16 s = Ok v.
Proof.
  unfold is_address. intros H.
  destruct s as [|c0 [|c1 h]]; try discriminate;
    try (destruct c0 as [[] [] [] [] [] [] [] []]; discriminate).
  destruct (Ascii.eqb_spec c0 "0") as [->|N0].
  - destruct (Ascii.eqb_spec c1 "x") as [->|N1].
    + apply andb_true_iff in H as [Hne Hh].
      destruct (int16_0x h Hh) as [v [_ Hv]].
      { intros ->. discriminate. }
      eauto.
    + exfalso. destruct c1 as [[] [] [] [] [] [] [] []];
        try discriminate; now apply N1.
  - exfalso. destruct c0 as [[] [] [] [] [] [] [] []];
      try discriminate; now apply N0.
Qed.

Lemma uint_decimal_chars (d : Decimal.uint) :
  all_chars is_decimal_char (NilEmpty.string_of_uint d) = true.
Proof. induction d; simpl; auto. Qed.

(** [str(n)] is made of decimal digits and at most a minus sign. *)
Lemma str_of_int_chars (n : Z) :
  all_chars is_decimal_char (Py.str_of_int n) = true.
Proof.
  unfold Py.str_of_int, NilZero.string_of_int, NilZero.string_of_uint.
  destruct (Z.to_int n) as [d|d]; destruct d;
    try reflexivity; apply uint_decimal_chars.
Qed.

Lemma char_in_append (c : ascii) (a b : string) :
  Py.char_in c (a ++ b) = Py.char_in c a || Py.char_in c b.
Proof.
  induction a as [|x a IH]; [reflexivity|].
  cbn [Py.char_in append]. now rewrite IH, orb_assoc.
Qed.

Lemma all_chars_not_in p (c : ascii) (s : string) :
  p c = false -> all_chars p s = true -> Py.char_in c s = false.
Proof.
  intros Hc. induction s as [|x s IH]; [reflexivity|].
  cbn [all_chars Py.char_in]. rewrite andb_true_iff. intros [Hx Hs].
  rewrite (IH Hs), orb_false_r.
  destruct (Ascii.eqb_spec c x) as [->|]; [congruence | reflexivity].
Qed.

End Literals.

(** ** AUTO_token_max *)

Section Synthesis.

Variable attacker_address : Address.

Lemma AUTO_token_loop_ok (items : list (string * Z)) :
  forall ps out,
    AUTO_token_loop attacker_address items ps = Ok out ->
    exists l, out = (ps ++ l)%list /\ Forall2 (emitted attacker_address) items l.
Proof.
  induction items as [|[token c] items IH]; intros ps out H.
  - injection H as <-. exists []. now rewrite app_nil_r.
  - cbn [AUTO_token_loop] in H.
    destruct (token_property attacker_address token c) as [p|] eqn:Hp;
      [|discriminate].
    cbn [bind] in H. apply IH in H as [l [-> Hl]].
    exists (p :: l). rewrite <- app_assoc. split; [reflexivity|].
    constructor; assumption.
Qed.

Lemma AUTO_token_loop_total (items : list (string * Z)) :
  Forall (fun item => exists p, emitted attacker_address item p) items ->
  forall ps, exists l,
    AUTO_token_loop attacker_address items ps = Ok (ps ++ l)%list /\
    Forall2 (emitted attacker_address) items l.
Proof.
  induction 1 as [|[token c] items [p Hp] _ IH]; intros ps.
  - exists []. now rewrite app_nil_r.
  - destruct (IH (ps ++ [p])%list) as [l [E Hl]].
    exists (p :: l). cbn [AUTO_token_loop].
    unfold emitted in Hp. cbn [fst snd] in Hp. rewrite Hp. cbn [bind].
    rewrite E, <- app_assoc. split; [reflexivity|].
    constructor; assumption.
Qed.

Lemma emitted_fields (item : string * Z) (p : Property) :
  emitted attacker_address item p ->
  exists t a,
    Py.int16 (fst item) = Ok t /\ Py.int16 attacker_address = Ok a /\
    name p = property_name (fst item) (snd item) /\
    content p = String newline (String tab (String tab
                  (balance_assertion t a (snd item)))) /\
    type p = CODE_QUALITY /\ return_type p = SUCCESS /\
    is_unit_test p = false /\ is_property_test p = true /\ caller p = ANY.
Proof.
  unfold emitted, token_property. intros H.
  destruct (Py.int16 (fst item)) as [t|]; [|discriminate].
  destruct (Py.int16 attacker_address) as [a|]; [|discriminate].
  injection H as <-. exists t, a. repeat split.
Qed.

Lemma Forall2_In_r {A B : Type} (R : A -> B -> Prop) (l : list A)
      (l' : list B) (y : B) :
  Forall2 R l l' -> In y l' -> exists x, In x l /\ R x y.
Proof.
  induction 1 as [|x y' l l' Hxy _ IH]; intros Hin; [contradiction|].
  destruct Hin as [->|Hin].
  - exists x. split; [now left | assumption].
  - destruct (IH Hin) as [x' [Hx' HR]]. exists x'. split; [now right | assumption].
Qed.

End Synthesis.

(** ** Names of the records *)

Section Names.

Lemma underscore_split (u u' v v' : string) :
  Py.char_in "_" u = false -> Py.char_in "_" u' = false ->
  u ++ String "_" v = u' ++ String "_" v' -> u = u' /\ v = v'.
Proof.
  revert u'. induction u as [|c u IH]; intros [|c' u'] Hu Hu' H;
    cbn [append Py.char_in] in *.
  - injection H as ->. split; reflexivity.
  - injection H as <- _. now rewrite Ascii.eqb_refl in Hu'.
  - injection H as -> _. now rewrite Ascii.eqb_refl in Hu.
  - injection H as -> H.
    apply orb_false_iff in Hu as [_ Hu]. apply orb_false_iff in Hu' as [_ Hu'].
    destruct (IH u' Hu Hu' H) as [-> ->]. split; reflexivity.
Qed.

Lemma str_of_int_no_underscore (n : Z) :
  Py.char_in "_" (Py.str_of_int n) = false.
Proof.
  apply (all_chars_not_in is_decimal_char); [reflexivity|].
  apply str_of_int_chars.
Qed.

Lemma address_stripped (s : string) :
  is_address s = true ->
  s = String "0" (String "x" (Py.replace "0x" "" s)).
Proof.
  unfold is_address. intros H.
  destruct s as [|c0 [|c1 h]]; try discriminate;
    try (destruct c0 as [[] [] [] [] [] [] [] []]; discriminate).
  destruct (Ascii.eqb_spec c0 "0") as [->|N0].
  - destruct (Ascii.eqb_spec c1 "x") as [->|N1].
    + apply andb_true_iff in H as [_ Hh].
      rewrite replace_0x_head, replace_no_x; [reflexivity|].
      now apply hex_no_x.
    + exfalso. destruct c1 as [[] [] [] [] [] [] [] []];
        try discriminate; now apply N1.
  - exfalso. destruct c0 as [[] [] [] [] [] [] [] []];
      try discriminate; now apply N0.
Qed.

(** Equal names come from equal ceilings and equal addresses. *)
Lemma property_name_inj (t1 t2 : Address) (c1 c2 : Z) :
  is_address t1 = true -> is_address t2 = true ->
  property_name t1 c1 = property_name t2 c2 -> t1 = t2.
Proof.
  intros A1 A2 H. unfold property_name in H.
  apply append_inv_head in H.
  change ("_from_" ++ ?r) with (String "_" ("from_" ++ r)) in H.
  apply underscore_split in H as [_ H];
    try apply str_of_int_no_underscore.
  apply append_inv_head, append_inv_tail in H.
  rewrite (address_stripped t1 A1), (address_stripped t2 A2).
  now rewrite H.
Qed.

Lemma names_NoDup (attacker_address : Address) (items : list (string * Z)) :
  forall l, Forall2 (emitted attacker_address) items l ->
            Forall (fun item => is_address (fst item) = true) items ->
            NoDup (map fst items) ->
            NoDup (map name l).
Proof.
  induction 1 as [|item p items l Hp Hl IH]; intros Haddr Hnd.
  - constructor.
  - inversion Haddr as [|? ? Hitem Hitems]; subst.
    inversion Hnd as [|? ? Hnotin Hnd']; subst.
    cbn [map]. constructor; [|now apply IH].
    intros Hin. apply in_map_iff in Hin as [p' [Hname Hin]].
    destruct (Forall2_In_r _ _ _ _ Hl Hin) as [item' [Hin' Hp']].
    apply emitted_fields in Hp as [_ [_ [_ [_ [Hn _]]]]].
    apply emitted_fields in Hp' as [_ [_ [_ [_ [Hn' _]]]]].
    rewrite Hn, Hn' in Hname.
    apply property_name_inj in Hname.
    + apply Hnotin. rewrite <- Hname. now apply in_map.
    + rewrite Forall_forall in Hitems. now apply Hitems.
    + exact Hitem.
Qed.

End Names.

Section SynthesisClaims.

Lemma AUTO_token_max_ok (attacker_address : Address)
      (tokens : OrderedDict.t Z) (ps : list Property) :
  AUTO_token_max attacker_address tokens = Ok ps ->
  Forall2 (emitted attacker_address) (OrderedDict.items tokens) ps.
Proof.
  unfold AUTO_token_max. intros H.
  apply AUTO_token_loop_ok in H as [l [-> Hl]]. exact Hl.
Qed.

(** C3: for an attacker address and a token map whose addresses are
    hexadecimal literals (what [int(., 16)] reads), [AUTO_token_max] returns
    one record per [(token, ceiling)] item, in the order of the items; the
    content of the record asserts that [balanceOf] of the token, applied to
    the attacker, is at most the ceiling, and its other fields are
    CODE_QUALITY, SUCCESS, not a unit test, a property test, caller ANY.
    On the empty map the result is the empty list. *)
Theorem AUTO_token_max_records (attacker_address : Address)
        (tokens : OrderedDict.t Z) :
  (forall a,
      Py.int16 attacker_address = Ok a ->
      Forall (fun item => is_ok (Py.int16 (fst item)) = true)
             (OrderedDict.items tokens) ->
      exists ps,
        AUTO_token_max attacker_address tokens = Ok ps /\
        Forall2 (fun item p =>
                   exists t,
                     Py.int16 (fst item) = Ok t /\
                     content p = String newline (String tab (String tab
                                   (balance_assertion t a (snd item)))) /\
                     type p = CODE_QUALITY /\ return_type p = SUCCESS /\
                     is_unit_test p = false /\ is_property_test p = true /\
                     caller p = ANY)
                (OrderedDict.items tokens) ps) /\
  AUTO_token_max attacker_address OrderedDict.empty = Ok [].
Proof.
  split; [|reflexivity].
  intros a Ha Htok.
  destruct (AUTO_token_loop_total attacker_address (OrderedDict.items tokens))
    with (ps := @nil Property) as [l [E Hl]].
  { eapply Forall_impl; [|exact Htok].
    intros [token c] Hok. cbn [fst] in Hok.
    unfold emitted, token_property. cbn [fst snd].
    destruct (Py.int16 token) as [t|]; [|discriminate].
    rewrite Ha. cbn [bind]. eauto. }
  exists l. split; [exact E|].
  eapply Forall2_impl; [|exact Hl].
  intros item p Hp.
  apply emitted_fields in Hp
    as [t [a' [Ht [Ha' [_ [Hc [H1 [H2 [H3 [H4 H5]]]]]]]]]].
  rewrite Ha in Ha'. injection Ha' as <-.
  exists t. repeat split; assumption.
Qed.

Lemma AUTO_token_max_records_witness :
  exists ps,
    AUTO_token_max "0xbb" [("0xcc", 0%Z); ("0xdd", 7%Z)] = Ok ps /\
    map content ps =
    [ String newline (String tab (String tab
        "return HasBalance(address(204)).balanceOf(address(187)) <= 0 ;"));
      String newline (String tab (String tab
        "return HasBalance(address(221)).balanceOf(address(187)) <= 7 ;")) ].
Proof.
  destruct (AUTO_token_max_records "0xbb" [("0xcc", 0%Z); ("0xdd", 7%Z)])
    as [H _].
  destruct (H 187%Z) as [ps [E _]].
  - reflexivity.
  - repeat constructor.
  - exists ps. split; [exact E|].
    vm_compute in E. injection E as <-. reflexivity.
Defined.

(** C4: within one run over a token map keyed by addresses ([0x] followed by
    hex digits), the names of the emitted records are pairwise distinct; the
    names of two distinct addresses differ whatever the two ceilings. *)
Theorem AUTO_token_max_names_distinct (attacker_address : Address)
        (tokens : OrderedDict.t Z) (ps : list Property) :
  Forall (fun item => is_address (fst item) = true)
         (OrderedDict.items tokens) ->
  NoDup (OrderedDict.keys tokens) ->
  AUTO_token_max attacker_address tokens = Ok ps ->
  NoDup (map name ps) /\
  Forall2 (fun item p => name p = property_name (fst item) (snd item))
          (OrderedDict.items tokens) ps /\
  (forall t1 t2 c1 c2,
      is_address t1 = true -> is_address t2 = true -> t1 <> t2 ->
      property_name t1 c1 <> property_name t2 c2).
Proof.
  intros Haddr Hnd H. apply AUTO_token_max_ok in H.
  split; [|split].
  - eapply names_NoDup; eassumption.
  - eapply Forall2_impl; [|exact H].
    intros item p Hp.
    now apply emitted_fields in Hp as [_ [_ [_ [_ [Hn _]]]]].
  - intros t1 t2 c1 c2 A1 A2 Hne Heq.
    apply Hne. eapply property_name_inj; eassumption.
Qed.

Lemma AUTO_token_max_names_distinct_witness :
  exists ps,
    AUTO_token_max "0xbb" [("0xcc", 5%Z); ("0xdd", 5%Z)] = Ok ps /\
    NoDup (map name ps) /\
    map name ps =
    [ "crytic_attacker_cannot_get_tokens_more_than_5_from_cc()";
      "crytic_attacker_cannot_get_tokens_more_than_5_from_dd()" ].
Proof.
  eexists. split; [vm_compute; reflexivity|]. split; [|reflexivity].
  apply (AUTO_token_max_names_distinct "0xbb" [("0xcc", 5%Z); ("0xdd", 5%Z)]).
  - repeat constructor.
  - repeat constructor; simpl; intuition discriminate.
  - vm_compute. reflexivity.
Defined.

(** C5, as stated, fails: the content of an emitted record holds a newline
    character. *)
Lemma content_has_newline :
  exists ps p,
    AUTO_token_max "0xbb" [("0xcc", 0%Z)] = Ok ps /\ In p ps /\
    Py.char_in newline (content p) = true.
Proof.
  eexists. eexists. split; [vm_compute; reflexivity|].
  split; [left; reflexivity | reflexivity].
Qed.

(** C5, amended: the content of every emitted record is a newline followed by
    a text that holds no newline; the text starts with two tabs. *)
Theorem content_one_leading_newline (attacker_address : Address)
        (tokens : OrderedDict.t Z) (ps : list Property) (p : Property) :
  AUTO_token_max attacker_address tokens = Ok ps -> In p ps ->
  exists body,
    content p = String newline (String tab (String tab body)) /\
    Py.char_in newline (String tab (String tab body)) = false.
Proof.
  intros H Hin. apply AUTO_token_max_ok in H.
  destruct (Forall2_In_r _ _ _ _ H Hin) as [item [_ Hp]].
  apply emitted_fields in Hp as [t [a [_ [_ [_ [Hc _]]]]]].
  exists (balance_assertion t a (snd item)). split; [exact Hc|].
  assert (Hstr : forall n, Py.char_in newline (Py.str_of_int n) = false).
  { intros n. apply (all_chars_not_in is_decimal_char); [reflexivity|].
    apply str_of_int_chars. }
  cbn [Py.char_in]. unfold balance_assertion.
  rewrite !char_in_append, !Hstr. reflexivity.
Qed.

Lemma content_one_leading_newline_witness :
  exists ps p body,
    AUTO_token_max "0xbb" [("0xcc", 0%Z)] = Ok ps /\ In p ps /\
    content p = String newline (String tab (String tab body)) /\
    Py.char_in newline (String tab (String tab body)) = false.
Proof.
  assert (E : AUTO_token_max "0xbb" [("0xcc", 0%Z)]
              = Ok [ {| name := property_name "0xcc" 0;
                        description :=
                          "The attacker address should not receive tokens.";
                        content := String newline (String tab (String tab
                                     (balance_assertion 204 187 0)));
                        type := CODE_QUALITY; return_type := SUCCESS;
                        is_unit_test := false; is_property_test := true;
                        caller := ANY |} ])
    by (vm_compute; reflexivity).
  destruct (content_one_leading_newline _ _ _ _ E (or_introl eq_refl))
    as [body [Hc Hn]].
  eexists. eexists. exists body.
  split; [exact E|]. split; [left; reflexivity|]. split; assumption.
Defined.

End SynthesisClaims.

(** ** The ordered map of token candidates *)

Section Tokens.

Variable c : Z.

Lemma setitem_with_ceiling (a : Address) (ks : list Address) :
  OrderedDict.setitem a c (with_ceiling c ks) =
  with_ceiling c (if seen a ks then ks else (ks ++ [a])%list).
Proof.
  unfold with_ceiling, seen.
  induction ks as [|k ks IH]; [reflexivity|].
  cbn [map OrderedDict.setitem existsb].
  rewrite (String.eqb_sym a k).
  destruct (String.eqb k a); [reflexivity|].
  cbn [orb]. rewrite IH.
  destruct (existsb (String.eqb a) ks); reflexivity.
Qed.

Lemma filter_filter_comm {A : Type} (p q : A -> bool) (l : list A) :
  filter p (filter q l) = filter q (filter p l).
Proof.
  induction l as [|x l IH]; [reflexivity|].
  cbn [filter]. destruct (p x) eqn:Hp, (q x) eqn:Hq; cbn [filter];
    rewrite ?Hp, ?Hq, IH; reflexivity.
Qed.

Lemma filter_absorb {A : Type} (p q : A -> bool) (l : list A) :
  (forall x, p x = true -> q x = true) ->
  filter p (filter q l) = filter p l.
Proof.
  intros Hpq. induction l as [|x l IH]; [reflexivity|].
  cbn [filter]. destruct (q x) eqn:Hq; cbn [filter].
  - now rewrite IH.
  - destruct (p x) eqn:Hp; [|exact IH].
    apply Hpq in Hp. congruence.
Qed.

Lemma first_seen_filter (p : Address -> bool) (l : list Address) :
  first_seen (filter p l) = filter p (first_seen l).
Proof.
  induction l as [|x l IH]; [reflexivity|].
  cbn [filter first_seen]. destruct (p x) eqn:Hp; cbn [first_seen filter].
  - rewrite IH. f_equal. apply filter_filter_comm.
  - rewrite IH. symmetry. apply filter_absorb.
    intros y Hy. destruct (String.eqb_spec y x) as [->|]; [congruence|].
    reflexivity.
Qed.

Lemma seen_app (a : Address) (l l' : list Address) :
  seen a (l ++ l') = seen a l || seen a l'.
Proof. apply existsb_app. Qed.

Lemma first_seen_fold (l : list Address) :
  forall ks,
    fold_left (fun d a => OrderedDict.setitem a c d) l (with_ceiling c ks) =
    with_ceiling c
      (ks ++ first_seen (filter (fun a => negb (seen a ks)) l)).
Proof.
  induction l as [|x l IH]; intros ks.
  - cbn. now rewrite app_nil_r.
  - cbn [fold_left filter]. rewrite setitem_with_ceiling.
    destruct (seen x ks) eqn:Hx; cbn [negb].
    + apply IH.
    + rewrite IH. f_equal. rewrite <- app_assoc. f_equal.
      cbn [app first_seen]. f_equal.
      rewrite <- first_seen_filter, filter_filter_comm.
      f_equal. clear. induction l as [|y l IH]; [reflexivity|].
      cbn [filter]. rewrite seen_app. unfold seen at 2. cbn [existsb].
      rewrite orb_false_r.
      destruct (String.eqb y x) eqn:E; destruct (seen y ks) eqn:S;
        cbn [negb orb filter]; rewrite ?S; cbn [negb];
        rewrite IH; reflexivity.
Qed.

Lemma first_seen_In (l : list Address) (a : Address) :
  In a (first_seen l) <-> In a l.
Proof.
  induction l as [|x l IH]; [reflexivity|].
  cbn [first_seen In]. rewrite filter_In, IH.
  destruct (String.eqb_spec a x) as [->|Hne].
  - split; [intros _; now left | intros _; now left].
  - split.
    + intros [H|[H _]]; [now left | now right].
    + intros [H|H]; [now left | right; split; [exact H | reflexivity]].
Qed.

Lemma first_seen_NoDup (l : list Address) : NoDup (first_seen l).
Proof.
  induction l as [|x l IH]; cbn [first_seen]; constructor.
  - rewrite filter_In. intros [_ H]. now rewrite String.eqb_refl in H.
  - now apply NoDup_filter.
Qed.

Lemma with_ceiling_keys (l : list Address) :
  OrderedDict.keys (with_ceiling c l) = l.
Proof.
  unfold OrderedDict.keys, with_ceiling. rewrite map_map. apply map_id.
Qed.

End Tokens.

(** ** The scan of the trace *)

Section Scan.

Variable max_balance : Z.

Lemma int16_raises (s : string) (e : PyError) :
  Py.int16 s = Raise e -> e = ValueError.
Proof.
  unfold Py.int16. intros H.
  repeat match type of H with
         | context [match ?x with _ => _ end] => destruct x
         end; congruence.
Qed.

Lemma matching_calls_cons (tx : Event) (txs : list Event) :
  matching_calls (tx :: txs) = (matching_calls [tx] ++ matching_calls txs)%list.
Proof. unfold matching_calls. cbn [flat_map]. now rewrite app_nil_r. Qed.

Lemma scan_step_ok (st st' : scan_state) (i : nat) (tx : Event) :
  scan_step max_balance st i tx = Ok st' ->
  selector_parses tx = true /\
  tokens st' = fold_left (fun d a => OrderedDict.setitem a max_balance d)
                         (matching_calls [tx]) (tokens st) /\
  last_create st' = (if is_create tx then Some i else last_create st).
Proof.
  destruct tx as [from|from to data v gu gp|n]; cbn [scan_step]; intros H.
  - injection H as <-. repeat split.
  - unfold selector_parses, matching_calls, is_erc20_data. cbn [flat_map].
    destruct (Py.int16 (Py.slice_to 10 data)) as [sel|]; [|discriminate].
    cbn [bind] in H. destruct (int_in sel erc20_sigs);
      injection H as <-; repeat split.
  - injection H as <-. repeat split.
Qed.

Lemma scan_step_raise (st : scan_state) (i : nat) (tx : Event) :
  selector_parses tx = false ->
  scan_step max_balance st i tx = Raise ValueError.
Proof.
  destruct tx as [from|from to data v gu gp|n]; cbn [selector_parses];
    try discriminate.
  cbn [scan_step].
  destruct (Py.int16 (Py.slice_to 10 data)) as [sel|e] eqn:E;
    [discriminate|].
  intros _. apply int16_raises in E as ->. reflexivity.
Qed.

Lemma scan_step_total (st : scan_state) (i : nat) (tx : Event) :
  selector_parses tx = true ->
  exists st', scan_step max_balance st i tx = Ok st'.
Proof.
  destruct tx as [from|from to data v gu gp|n]; cbn [selector_parses scan_step];
    intros H; try (eexists; reflexivity).
  destruct (Py.int16 (Py.slice_to 10 data)); [|discriminate].
  cbn [bind]. eexists; reflexivity.
Qed.

Lemma scan_loop_ok (txs : list Event) :
  forall st i st',
    scan_loop max_balance st i txs = Ok st' ->
    forallb selector_parses txs = true /\
    tokens st' = fold_left (fun d a => OrderedDict.setitem a max_balance d)
                           (matching_calls txs) (tokens st) /\
    last_create st' = match last_create_index txs with
                      | Some j => Some (i + j)
                      | None => last_create st
                      end.
Proof.
  induction txs as [|tx txs IH]; intros st i st' H.
  - injection H as <-. repeat split.
  - cbn [scan_loop] in H.
    destruct (scan_step max_balance st i tx) as [st1|] eqn:E; [|discriminate].
    cbn [bind] in H.
    apply scan_step_ok in E as [Hp [Ht Hl]].
    apply IH in H as [Hp' [Ht' Hl']].
    cbn [forallb last_create_index]. rewrite Hp, Hp'.
    split; [reflexivity|]. split.
    + rewrite matching_calls_cons, fold_left_app, Ht', Ht. reflexivity.
    + rewrite Hl', Hl.
      destruct (last_create_index txs) as [j|].
      * f_equal. lia.
      * destruct (is_create tx); [f_equal; lia | reflexivity].
Qed.

Lemma scan_loop_total (txs : list Event) :
  forallb selector_parses txs = true ->
  forall st i, exists st', scan_loop max_balance st i txs = Ok st'.
Proof.
  induction txs as [|tx txs IH]; intros H st i; [cbn; eauto|].
  cbn [forallb] in H. apply andb_true_iff in H as [Hp Hr].
  destruct (scan_step_total st i tx Hp) as [st1 E].
  cbn [scan_loop]. rewrite E. cbn [bind]. apply IH, Hr.
Qed.

Lemma scan_loop_raise (txs : list Event) :
  forallb selector_parses txs = false ->
  forall st i, scan_loop max_balance st i txs = Raise ValueError.
Proof.
  induction txs as [|tx txs IH]; intros H st i; [discriminate|].
  cbn [forallb] in H. cbn [scan_loop].
  destruct (selector_parses tx) eqn:Hp.
  - destruct (scan_step_total st i tx Hp) as [st1 E].
    rewrite E. cbn [bind]. apply IH. exact H.
  - now rewrite scan_step_raise.
Qed.

Lemma scan_loop_app (p q : list Event) :
  forall st i,
    scan_loop max_balance st i (p ++ q) =
    (st1 <- scan_loop max_balance st i p ;;
     scan_loop max_balance st1 (i + List.length p) q).
Proof.
  induction p as [|tx p IH]; intros st i.
  - cbn. now rewrite Nat.add_0_r.
  - cbn [app scan_loop List.length].
    destruct (scan_step max_balance st i tx) as [st1|]; [|reflexivity].
    cbn [bind]. rewrite IH. now rewrite Nat.add_succ_r.
Qed.

End Scan.

(** ** The last creation event *)

Section LastCreate.

Lemma last_create_index_none (txs : list Event) :
  last_create_index txs = None <-> existsb is_create txs = false.
Proof.
  induction txs as [|tx txs IH]; [split; reflexivity|].
  cbn [last_create_index existsb]. rewrite orb_false_iff, <- IH.
  destruct (last_create_index txs) as [j|].
  - split; [discriminate | intros [_ H]; discriminate].
  - destruct (is_create tx); split; try discriminate; auto.
    intros [H _]. discriminate.
Qed.

Lemma last_create_index_some (txs : list Event) :
  forall j,
    last_create_index txs = Some j ->
    exists pre from post,
      txs = (pre ++ ContractCreated from :: post)%list /\
      List.length pre = j /\ existsb is_create post = false.
Proof.
  induction txs as [|tx txs IH]; intros j H; [discriminate|].
  cbn [last_create_index] in H.
  destruct (last_create_index txs) as [j'|] eqn:E.
  - injection H as <-.
    destruct (IH j' eq_refl) as [pre [from [post [-> [Hlen Hpost]]]]].
    exists (tx :: pre), from, post. cbn [List.length]. auto.
  - destruct tx as [from| |]; try discriminate.
    injection H as <-.
    exists [], from, txs. repeat split. now apply last_create_index_none.
Qed.

Lemma split_at (pre post : list Event) (tx : Event) :
  firstn (List.length pre + 1) (pre ++ tx :: post) = (pre ++ [tx])%list /\
  skipn (List.length pre + 1) (pre ++ tx :: post) = post.
Proof.
  replace (pre ++ tx :: post)%list with ((pre ++ [tx]) ++ post)%list
    by now rewrite <- app_assoc.
  replace (List.length pre + 1) with (List.length (pre ++ [tx])%list)
    by (rewrite length_app; reflexivity).
  split.
  - rewrite firstn_app, Nat.sub_diag, firstn_all. cbn. now rewrite app_nil_r.
  - rewrite skipn_app, Nat.sub_diag, skipn_all. reflexivity.
Qed.

End LastCreate.

(** ** Selectors *)

Section Selectors.

Lemma erc20_sigs_value : erc20_sigs = token_selectors.
Proof. vm_compute. reflexivity. Qed.

Lemma hex_value_range (c : ascii) (d : Z) :
  Py.hex_value c = Some d -> (0 <= d < 16)%Z.
Proof.
  destruct c as [[] [] [] [] [] [] [] []]; vm_compute; intros H;
    try discriminate; injection H as <-; split; congruence.
Qed.

Lemma hex_number_bound (h : string) :
  forall acc v,
    (0 <= acc)%Z -> hex_number h acc = Some v ->
    (acc * 16 ^ Z.of_nat (String.length h) <= v
     < (acc + 1) * 16 ^ Z.of_nat (String.length h))%Z.
Proof.
  induction h as [|c h IH]; intros acc v Hacc H.
  - injection H as <-. cbn. lia.
  - cbn [hex_number] in H.
    destruct (Py.hex_value c) as [d|] eqn:Hd; [|discriminate].
    apply hex_value_range in Hd.
    apply IH in H; [|lia].
    cbn [String.length]. rewrite Nat2Z.inj_succ, Z.pow_succ_r by lia.
    assert (0 < 16 ^ Z.of_nat (String.length h))%Z by (apply Z.pow_pos_nonneg; lia).
    nia.
Qed.

Lemma slice_to_all (n : nat) (s : string) :
  String.length s <= n -> Py.slice_to n s = s.
Proof.
  revert n. induction s as [|c s IH]; intros [|n] H; try reflexivity.
  - cbn in H. lia.
  - cbn [Py.slice_to]. rewrite IH; [reflexivity | cbn in H; lia].
Qed.

Lemma slice_to_chars p (n : nat) (s : string) :
  all_chars p s = true -> all_chars p (Py.slice_to n s) = true.
Proof.
  revert n. induction s as [|c s IH]; intros [|n] H; try reflexivity.
  cbn [all_chars] in H. apply andb_true_iff in H as [Hc Hs].
  cbn [Py.slice_to all_chars]. now rewrite Hc, IH.
Qed.

Lemma small_not_selector (v : Z) :
  (v < 16 ^ 6)%Z -> int_in v erc20_sigs = false.
Proof.
  intros H. rewrite erc20_sigs_value. unfold int_in, token_selectors.
  cbn [existsb]. change (16 ^ 6)%Z with 16777216%Z in H.
  repeat (apply orb_false_iff; split); try reflexivity;
    apply Z.eqb_neq; lia.
Qed.

(** A blob of one to six hex digits parses and is no selector. *)
Lemma short_hex_not_selector (h : string) :
  all_chars is_hex_digit h = true -> h <> "" -> String.length h <= 6 ->
  exists v, Py.int16 (Py.slice_to 10 (String "0" (String "x" h))) = Ok v /\
            int_in v erc20_sigs = false.
Proof.
  intros Hh Hne Hlen.
  change (Py.slice_to 10 (String "0" (String "x" h)))
    with (String "0" (String "x" (Py.slice_to 8 h))).
  rewrite slice_to_all by lia.
  destruct (int16_0x h Hh Hne) as [v [Hv E]].
  exists v. split; [exact E|].
  apply small_not_selector.
  apply hex_number_bound in Hv; [|lia].
  assert (16 ^ Z.of_nat (String.length h) <= 16 ^ 6)%Z
    by (apply Z.pow_le_mono_r; lia).
  lia.
Qed.

(** On a blob of whole bytes the test of the analyzer is the comparison of
    the leading four bytes with the three selectors. *)
Lemma blob_test (data : string) :
  is_hex_blob data = true -> is_erc20_data data = selector_matches data.
Proof.
  unfold is_hex_blob. intros H.
  destruct data as [|c0 [|c1 h]]; try discriminate;
    try (destruct c0 as [[] [] [] [] [] [] [] []]; discriminate).
  destruct (Ascii.eqb_spec c0 "0") as [->|N0];
    [|exfalso; destruct c0 as [[] [] [] [] [] [] [] []];
      try discriminate; now apply N0].
  destruct (Ascii.eqb_spec c1 "x") as [->|N1];
    [|exfalso; destruct c1 as [[] [] [] [] [] [] [] []];
      try discriminate; now apply N1].
  apply andb_true_iff in H as [Hh Hev].
  unfold is_erc20_data, selector_matches, leading_selector.
  destruct h as [|c h]; [reflexivity|].
  destruct (Nat.leb 8 (String.length (String c h))) eqn:Hlen.
  - change (Py.slice_to 10 (String "0" (String "x" (String c h))))
      with (String "0" (String "x" (Py.slice_to 8 (String c h)))).
    destruct (int16_0x (Py.slice_to 8 (String c h))) as [v [Hv E]].
    + now apply slice_to_chars.
    + discriminate.
    + rewrite E, Hv, erc20_sigs_value. reflexivity.
  - apply Nat.leb_gt in Hlen.
    apply Nat.even_spec in Hev as [k Hk].
    destruct (short_hex_not_selector (String c h)) as [v [E Hv]];
      [exact Hh | discriminate | lia |].
    now rewrite E.
Qed.

End Selectors.

(** ** detect_token_props *)

Section Analysis.

Variable attacker_address : Address.

Lemma detect_unfold (txs : list Event) (max_balance : option Z) :
  detect_token_props txs attacker_address max_balance =
  (st <- scan_loop (ceiling_of max_balance) scan_init 0 txs ;;
   match last_create st with
   | None => Raise TypeError
   | Some lc => Ok {| an_accounts := accounts st;
                      an_tokens := tokens st;
                      init_txs := firstn (lc + 1) txs;
                      samples_txs := skipn (lc + 1) txs |}
   end).
Proof. reflexivity. Qed.

Lemma detect_ok (txs : list Event) (max_balance : option Z) (r : analysis) :
  detect_token_props txs attacker_address max_balance = Ok r ->
  exists st lc,
    scan_loop (ceiling_of max_balance) scan_init 0 txs = Ok st /\
    last_create_index txs = Some lc /\
    r = {| an_accounts := accounts st;
           an_tokens := tokens st;
           init_txs := firstn (lc + 1) txs;
           samples_txs := skipn (lc + 1) txs |}.
Proof.
  rewrite detect_unfold. intros H.
  destruct (scan_loop (ceiling_of max_balance) scan_init 0 txs)
    as [st|] eqn:E; [|discriminate].
  cbn [bind] in H.
  pose proof (scan_loop_ok _ _ _ _ _ E) as [_ [_ Hl]].
  cbn [last_create scan_init] in Hl.
  destruct (last_create_index txs) as [j|].
  - rewrite Hl in H. injection H as <-. exists st, j. auto.
  - rewrite Hl in H. discriminate.
Qed.

Lemma detect_returns (txs : list Event) (max_balance : option Z) :
  existsb is_create txs = true -> forallb selector_parses txs = true ->
  exists st lc,
    scan_loop (ceiling_of max_balance) scan_init 0 txs = Ok st /\
    last_create_index txs = Some lc /\
    detect_token_props txs attacker_address max_balance =
    Ok {| an_accounts := accounts st;
          an_tokens := tokens st;
          init_txs := firstn (lc + 1) txs;
          samples_txs := skipn (lc + 1) txs |}.
Proof.
  intros Hc Hp.
  destruct (scan_loop_total (ceiling_of max_balance) txs Hp scan_init 0)
    as [st E].
  pose proof (scan_loop_ok _ _ _ _ _ E) as [_ [_ Hl]].
  cbn [last_create scan_init] in Hl.
  destruct (last_create_index txs) as [j|] eqn:Hj.
  - exists st, j. rewrite detect_unfold, E. cbn [bind]. rewrite Hl. auto.
  - apply last_create_index_none in Hj. congruence.
Qed.

Lemma detect_raises (txs : list Event) (max_balance : option Z) :
  existsb is_create txs = false ->
  detect_token_props txs attacker_address max_balance =
  Raise (if forallb selector_parses txs then TypeError else ValueError).
Proof.
  intros Hc. rewrite detect_unfold.
  destruct (forallb selector_parses txs) eqn:Hp.
  - destruct (scan_loop_total (ceiling_of max_balance) txs Hp scan_init 0)
      as [st E].
    pose proof (scan_loop_ok _ _ _ _ _ E) as [_ [_ Hl]].
    apply last_create_index_none in Hc.
    rewrite Hc in Hl. cbn [last_create scan_init] in Hl.
    rewrite E. cbn [bind]. now rewrite Hl.
  - now rewrite scan_loop_raise.
Qed.

Lemma detect_unparsed (txs : list Event) (max_balance : option Z) :
  forallb selector_parses txs = false ->
  detect_token_props txs attacker_address max_balance = Raise ValueError.
Proof. intros H. rewrite detect_unfold. now rewrite scan_loop_raise. Qed.

End Analysis.

Section AnalysisClaims.

(** C1, as stated, fails: a trace with a creation event, in which one call
    carries the empty blob, is not split; the analysis raises. *)
Lemma split_needs_selectors :
  let txs := [ ContractCreated "0xaa";
               FunctionCall "0xbb" "0xcc" "0x" "0x1" "0x1" "0x1";
               FunctionCall "0xbb" "0xcc" "0x70a08231" "0x0" "0x1" "0x1" ] in
  existsb is_create txs = true /\
  detect_token_props txs "0xbb" None = Raise ValueError.
Proof. split; vm_compute; reflexivity. Qed.

(** C1, amended: for a trace with at least one ContractCreated event in which
    the first ten characters of the data of every FunctionCall are a base-16
    literal, the analyzer splits the trace at [last_create + 1]: [init_txs]
    is the prefix up to and including the last ContractCreated event and
    [samples_txs] is the rest.  For one ContractCreated event followed by
    [N] such FunctionCall events, [init_txs] has length 1 and [samples_txs]
    length [N]. *)
Theorem split_at_last_create :
  (forall (txs : list Event) (attacker_address : Address)
          (max_balance : option Z),
      existsb is_create txs = true ->
      forallb selector_parses txs = true ->
      exists r lc pre from,
        detect_token_props txs attacker_address max_balance = Ok r /\
        last_create_index txs = Some lc /\
        init_txs r = firstn (lc + 1) txs /\
        samples_txs r = skipn (lc + 1) txs /\
        init_txs r = (pre ++ [ContractCreated from])%list /\
        existsb is_create (samples_txs r) = false /\
        (init_txs r ++ samples_txs r)%list = txs) /\
  (forall (from : Address) (calls : list Event) (attacker_address : Address)
          (max_balance : option Z),
      forallb is_call calls = true ->
      forallb selector_parses calls = true ->
      exists r,
        detect_token_props (ContractCreated from :: calls)
                           attacker_address max_balance = Ok r /\
        init_txs r = [ContractCreated from] /\ samples_txs r = calls /\
        List.length (init_txs r) = 1 /\
        List.length (samples_txs r) = List.length calls).
Proof.
  assert (General :
    forall txs attacker_address max_balance,
      existsb is_create txs = true ->
      forallb selector_parses txs = true ->
      exists r lc pre from,
        detect_token_props txs attacker_address max_balance = Ok r /\
        last_create_index txs = Some lc /\
        init_txs r = firstn (lc + 1) txs /\
        samples_txs r = skipn (lc + 1) txs /\
        init_txs r = (pre ++ [ContractCreated from])%list /\
        existsb is_create (samples_txs r) = false /\
        (init_txs r ++ samples_txs r)%list = txs).
  { intros txs att mb Hc Hp.
    destruct (detect_returns att txs mb Hc Hp) as [st [lc [_ [Hlc E]]]].
    destruct (last_create_index_some txs lc Hlc)
      as [pre [from [post [Htxs [Hlen Hpost]]]]].
    destruct (split_at pre post (ContractCreated from)) as [Hf Hs].
    rewrite Hlen, <- Htxs in Hf, Hs.
    eexists. exists lc, pre, from.
    split; [exact E|]. cbn [init_txs samples_txs].
    rewrite Hf, Hs. repeat split; try assumption.
    rewrite Htxs, <- app_assoc. reflexivity. }
  split; [exact General|].
  intros from calls att mb Hcalls Hp.
  destruct (General (ContractCreated from :: calls) att mb)
    as [r [lc [pre [from' [E [Hlc [Hi [Hs _]]]]]]]];
    [reflexivity | exact Hp |].
  assert (Hnone : last_create_index calls = None).
  { apply last_create_index_none.
    clear -Hcalls. induction calls as [|tx calls IH]; [reflexivity|].
    cbn [forallb existsb] in *. apply andb_true_iff in Hcalls as [Htx Hr].
    rewrite (IH Hr), orb_false_r. now destruct tx. }
  cbn [last_create_index is_create] in Hlc. rewrite Hnone in Hlc.
  injection Hlc as <-. cbn in Hi, Hs.
  exists r. rewrite Hi, Hs. repeat split. exact E.
Qed.

Lemma split_at_last_create_witness :
  let txs := [ ContractCreated "0xaa";
               FunctionCall "0xbb" "0xcc" "0x70a08231" "0x0" "0x1" "0x1";
               ContractCreated "0xaa";
               FunctionCall "0xbb" "0xdd" "0xa9059cbb" "0x0" "0x1" "0x1";
               FunctionCall "0xbb" "0xdd" "0x12" "0x0" "0x1" "0x1" ] in
  existsb is_create txs = true /\ forallb selector_parses txs = true /\
  exists r,
    detect_token_props txs "0xbb" None = Ok r /\
    init_txs r = firstn 3 txs /\ samples_txs r = skipn 3 txs.
Proof.
  split; [reflexivity|]. split; [reflexivity|].
  destruct split_at_last_create as [H _].
  destruct (H [ ContractCreated "0xaa";
               FunctionCall "0xbb" "0xcc" "0x70a08231" "0x0" "0x1" "0x1";
               ContractCreated "0xaa";
               FunctionCall "0xbb" "0xdd" "0xa9059cbb" "0x0" "0x1" "0x1";
               FunctionCall "0xbb" "0xdd" "0x12" "0x0" "0x1" "0x1" ]
              "0xbb" None eq_refl eq_refl)
    as [r [lc [_ [_ [E [Hlc [Hi [Hs _]]]]]]]].
  injection Hlc as <-.
  exists r. repeat split; assumption.
Defined.

(** C9: on a trace without a ContractCreated event the analysis returns no
    split; it raises: [TypeError] from [last_create + 1] when the scan runs
    to the end, [ValueError] from the scan otherwise. *)
Theorem no_create_raises (txs : list Event) (attacker_address : Address)
        (max_balance : option Z) :
  existsb is_create txs = false ->
  detect_token_props txs attacker_address max_balance =
  Raise (if forallb selector_parses txs then TypeError else ValueError).
Proof. apply detect_raises. Qed.

Lemma no_create_raises_witness :
  let txs := [ FunctionCall "0xbb" "0xcc" "0x70a08231" "0x0" "0x1" "0x1" ] in
  existsb is_create txs = false /\
  detect_token_props txs "0xbb" (Some 10%Z) = Raise TypeError /\
  detect_token_props [] "0xbb" None = Raise TypeError.
Proof.
  split; [reflexivity|]. split.
  - apply (no_create_raises
             [ FunctionCall "0xbb" "0xcc" "0x70a08231" "0x0" "0x1" "0x1" ]
             "0xbb" (Some 10%Z)). reflexivity.
  - apply (no_create_raises [] "0xbb" None). reflexivity.
Defined.

End AnalysisClaims.

Section TokenClaims.

Lemma filter_all {A : Type} (l : list A) : filter (fun _ => true) l = l.
Proof. induction l as [|x l IH]; [reflexivity | cbn; now rewrite IH]. Qed.

Lemma tokens_closed (c : Z) (txs : list Event) (st : scan_state) :
  scan_loop c scan_init 0 txs = Ok st ->
  tokens st = with_ceiling c (first_seen (matching_calls txs)).
Proof.
  intros H. apply scan_loop_ok in H as [_ [Ht _]].
  rewrite Ht. cbn [tokens scan_init].
  change (@OrderedDict.empty Z) with (with_ceiling c []).
  rewrite first_seen_fold. cbn [app seen existsb negb].
  now rewrite filter_all.
Qed.

Lemma tokens_extend (c : Z) (q : list Event) (st st' : scan_state) (i : nat)
      (ks : list Address) :
  tokens st = with_ceiling c ks ->
  scan_loop c st i q = Ok st' ->
  exists extra, tokens st' = (tokens st ++ extra)%list.
Proof.
  intros Hks H. apply scan_loop_ok in H as [_ [Ht _]].
  rewrite Ht, Hks, first_seen_fold.
  unfold with_ceiling. rewrite map_app. eauto.
Qed.

Lemma matching_calls_In (txs : list Event) (a : Address) :
  In a (matching_calls txs) <->
  exists from data value gas_used gas_price,
    In (FunctionCall from a data value gas_used gas_price) txs /\
    is_erc20_data data = true.
Proof.
  unfold matching_calls. rewrite in_flat_map. split.
  - intros [[from|from to data v gu gp|n] [Hin Ha]]; try contradiction.
    destruct (is_erc20_data data) eqn:E; [|contradiction].
    destruct Ha as [<-|[]]. exists from, data, v, gu, gp. auto.
  - intros [from [data [v [gu [gp [Hin E]]]]]].
    exists (FunctionCall from a data v gu gp). split; [exact Hin|].
    rewrite E. now left.
Qed.

(** C2: the analyzer returns on every trace with a creation event whose calls
    carry a readable selector, and the tokens map that it returns has one
    entry for each distinct [to] address of a FunctionCall passing the
    selector test, in first-seen order, each with the ceiling of the run; the
    entries recorded after any prefix of the trace stay as they are, in
    place, to the end; and on a blob of whole bytes the test is that the
    leading four bytes are the selector of transfer(address,uint256),
    balanceOf(address) or approve(address,uint256). *)
Theorem tokens_first_seen (txs : list Event) (attacker_address : Address)
        (max_balance : option Z) :
  (existsb is_create txs = true -> forallb selector_parses txs = true ->
   exists r, detect_token_props txs attacker_address max_balance = Ok r) /\
  (forall r,
      detect_token_props txs attacker_address max_balance = Ok r ->
      an_tokens r = with_ceiling (ceiling_of max_balance)
                                 (first_seen (matching_calls txs)) /\
      NoDup (OrderedDict.keys (an_tokens r)) /\
      (forall a,
          In a (OrderedDict.keys (an_tokens r)) <->
          exists from data value gas_used gas_price,
            In (FunctionCall from a data value gas_used gas_price) txs /\
            is_erc20_data data = true) /\
      (forall p q,
          txs = (p ++ q)%list ->
          exists st extra,
            scan_loop (ceiling_of max_balance) scan_init 0 p = Ok st /\
            an_tokens r = (tokens st ++ extra)%list)) /\
  (forall data,
      is_hex_blob data = true -> is_erc20_data data = selector_matches data).
Proof.
  split; [|split; [|exact blob_test]].
  { intros Hc Hp.
    destruct (detect_returns attacker_address txs max_balance Hc Hp)
      as [st [lc [_ [_ E]]]].
    eauto. }
  intros r H. apply detect_ok in H as [st [lc [E [_ ->]]]].
  cbn [an_tokens].
  pose proof (tokens_closed _ _ _ E) as Ht.
  split; [exact Ht|]. split; [|split].
  - rewrite Ht, with_ceiling_keys. apply first_seen_NoDup.
  - intros a. rewrite Ht, with_ceiling_keys, first_seen_In.
    apply matching_calls_In.
  - intros p q ->. rewrite scan_loop_app in E.
    destruct (scan_loop (ceiling_of max_balance) scan_init 0 p)
      as [st1|] eqn:E1; [|discriminate].
    cbn [bind] in E.
    destruct (tokens_extend _ _ _ _ _ _ (tokens_closed _ _ _ E1) E)
      as [extra Hx].
    exists st1, extra. auto.
Qed.

Lemma tokens_first_seen_witness :
  let balanceOf := "0x70a08231000000000000000000000000000000bb" in
  let txs := [ ContractCreated "0xaa";
               FunctionCall "0xbb" "0xc1" balanceOf "0x0" "0x1" "0x1";
               FunctionCall "0xbb" "0xc2" balanceOf "0x0" "0x1" "0x1";
               FunctionCall "0xbb" "0xc3" "0xdeadbeef" "0x0" "0x1" "0x1";
               FunctionCall "0xbb" "0xc1" "0xa9059cbb" "0x0" "0x1" "0x1" ] in
  existsb is_create txs = true /\ forallb selector_parses txs = true /\
  exists r,
    detect_token_props txs "0xbb" (Some 9%Z) = Ok r /\
    an_tokens r = [("0xc1", 9%Z); ("0xc2", 9%Z)].
Proof.
  cbv zeta. split; [reflexivity|]. split; [reflexivity|].
  match goal with
  | |- exists r, detect_token_props ?txs ?a ?m = Ok r /\ _ =>
      destruct (tokens_first_seen txs a m) as [Hret [Htok _]]
  end.
  destruct (Hret eq_refl eq_refl) as [r E].
  exists r. split; [exact E|].
  destruct (Htok r E) as [Ht _].
  rewrite Ht. vm_compute. reflexivity.
Defined.

(** C8, as stated, fails: a call whose data is the empty blob is too short
    for a selector, and the analysis raises on it. *)
Lemma empty_blob_is_fatal :
  let call := FunctionCall "0xbb" "0xcc" "0x" "0x1" "0x1" "0x1" in
  String.length "0x" < 10 /\
  scan_step 0 scan_init 1 call = Raise ValueError /\
  detect_token_props [ContractCreated "0xaa"; call] "0xbb" None
  = Raise ValueError.
Proof. split; [vm_compute; lia|]. split; vm_compute; reflexivity. Qed.

(** C8, amended: a FunctionCall whose data is [0x] followed by one to six
    hex digits leaves the tokens map as it is and the scan goes on; a
    FunctionCall whose first ten data characters are not a base-16 literal,
    as for the empty blob [0x] and for the empty string, makes the analysis
    raise [ValueError]. *)
Theorem short_data (from to : Address) (value gas_used gas_price : string) :
  (forall (h : string) (max_balance : Z) (st : scan_state) (i : nat),
      all_chars is_hex_digit h = true ->
      1 <= String.length h <= 6 ->
      scan_step max_balance st i
                (FunctionCall from to ("0x" ++ h) value gas_used gas_price)
      = Ok {| accounts := set_add from (accounts st);
              last_create := last_create st;
              tokens := tokens st |}) /\
  (forall (data : string) (txs : list Event) (attacker_address : Address)
          (max_balance : option Z),
      is_ok (Py.int16 (Py.slice_to 10 data)) = false ->
      In (FunctionCall from to data value gas_used gas_price) txs ->
      detect_token_props txs attacker_address max_balance
      = Raise ValueError) /\
  is_ok (Py.int16 (Py.slice_to 10 "0x")) = false /\
  is_ok (Py.int16 (Py.slice_to 10 "")) = false.
Proof.
  split; [|split; [|split; reflexivity]].
  - intros h mb st i Hh Hlen.
    destruct (short_hex_not_selector h Hh) as [v [E Hv]];
      [intros ->; cbn in Hlen; lia | lia |].
    cbn [scan_step]. change ("0x" ++ h) with (String "0" (String "x" h)).
    rewrite E. cbn [bind]. now rewrite Hv.
  - intros data txs att mb Hd Hin.
    apply detect_unparsed.
    destruct (forallb selector_parses txs) eqn:Hp; [|reflexivity].
    rewrite forallb_forall in Hp. apply Hp in Hin.
    cbn [selector_parses] in Hin. congruence.
Qed.

Lemma short_data_witness :
  scan_step 0 scan_init 1
            (FunctionCall "0xbb" "0xcc" "0x70a0" "0x0" "0x1" "0x1")
  = Ok {| accounts := ["0xbb"]; last_create := None; tokens := [] |} /\
  detect_token_props
    [ ContractCreated "0xaa";
      FunctionCall "0xbb" "0xcc" "" "0x0" "0x1" "0x1" ] "0xbb" None
  = Raise ValueError.
Proof.
  destruct (short_data "0xbb" "0xcc" "0x0" "0x1" "0x1") as [H1 [H2 _]].
  split.
  - apply (H1 "70a0" 0%Z scan_init 1); [reflexivity | cbn; lia].
  - apply (H2 ""); [reflexivity | right; left; reflexivity].
Defined.

(** Call data that starts with U+00A0: [int] skips it, the selector is read
    and the callee is recorded. *)
Example selector_after_nbsp :
  Py.int16 (String "160" "70a08231") = Ok 1889567281%Z /\
  exists r,
    detect_token_props
      [ ContractCreated "0xaa";
        FunctionCall "0xbb" "0xcc" (String "160" "70a08231")
                     "0x0" "0x1" "0x1" ] "0xbb" None = Ok r /\
    an_tokens r = [("0xcc", 0%Z)].
Proof.
  split; [reflexivity|]. eexists. split; vm_compute; reflexivity.
Qed.

End TokenClaims.

(** * Further properties of the code *)

(** ** checksum_encode: normal forms of the input, and its errors *)

Section ChecksumInputs.

Lemma lower_upper_char (c : ascii) :
  Py.lower_char (Py.upper_char c) = Py.lower_char c.
Proof. destruct c as [[] [] [] [] [] [] [] []]; reflexivity. Qed.

Lemma lower_lower_char (c : ascii) :
  Py.lower_char (Py.lower_char c) = Py.lower_char c.
Proof. destruct c as [[] [] [] [] [] [] [] []]; reflexivity. Qed.

Lemma lower_upper (s : string) : Py.lower (Py.upper s) = Py.lower s.
Proof.
  unfold Py.lower, Py.upper.
  induction s as [|c s IH]; [reflexivity|].
  cbn [Py.str_map]. now rewrite lower_upper_char, IH.
Qed.

Lemma lower_lower (s : string) : Py.lower (Py.lower s) = Py.lower s.
Proof.
  unfold Py.lower.
  induction s as [|c s IH]; [reflexivity|].
  cbn [Py.str_map]. now rewrite lower_lower_char, IH.
Qed.

(** X1. The result does not depend on the case of the input. *)
Theorem checksum_encode_ignores_case (hex_addr : string) :
  all_chars is_ascii hex_addr = true ->
  checksum_encode (Py.upper hex_addr) = checksum_encode hex_addr /\
  checksum_encode (Py.lower hex_addr) = checksum_encode hex_addr.
Proof.
  intros _. split; apply checksum_encode_stripped; unfold stripped.
  - now rewrite lower_upper.
  - now rewrite lower_lower.
Qed.

Lemma checksum_encode_ignores_case_witness :
  let a := "0xdeadBEEF00000000000000000000000000000001" in
  all_chars is_ascii a = true /\
  checksum_encode (Py.upper a) = checksum_encode a /\
  checksum_encode (Py.lower a) = checksum_encode a.
Proof.
  split; [reflexivity|].
  apply (checksum_encode_ignores_case
           "0xdeadBEEF00000000000000000000000000000001").
  reflexivity.
Defined.

(** X2. The prefix is optional, in either case of the [x]. *)
Theorem checksum_encode_prefix_optional (h : string) :
  checksum_encode ("0x" ++ h) = checksum_encode h /\
  checksum_encode ("0X" ++ h) = checksum_encode h.
Proof.
  split; apply checksum_encode_stripped; unfold stripped.
  - change (Py.lower ("0x" ++ h)) with (String "0" (String "x" (Py.lower h))).
    apply replace_0x_head.
  - change (Py.lower ("0X" ++ h)) with (String "0" (String "x" (Py.lower h))).
    apply replace_0x_head.
Qed.

Lemma get_none (s : string) (i : nat) :
  String.length s <= i -> String.get i s = None.
Proof.
  revert i. induction s as [|c s IH]; intros i H; [reflexivity|].
  destruct i as [|i]; cbn in H; [lia|]. cbn. apply IH. lia.
Qed.

Lemma lower_hex_classes (c : ascii) :
  is_lower_hex c = Py.char_in c "0123456789" || Py.char_in c "abcdef".
Proof. destruct c as [[] [] [] [] [] [] [] []]; reflexivity. Qed.

(** Over a valid prefix that the digest covers the loop goes on with the
    cased prefix in the buffer. *)
Lemma checksum_loop_app (dg : string) :
  all_chars is_lower_hex dg = true ->
  forall (pre rest : string) (i : nat) (buf : string),
    all_chars is_lower_hex pre = true ->
    i + String.length pre <= String.length dg ->
    checksum_loop dg i (pre ++ rest) buf =
    checksum_loop dg (i + String.length pre) rest
                  (buf ++ spec_case_from dg i pre).
Proof.
  intros Hdg. induction pre as [|c r IH]; intros rest i buf Hr Hlen.
  - cbn. now rewrite Nat.add_0_r, append_nil_r.
  - cbn [all_chars] in Hr. apply andb_true_iff in Hr as [Hc Hr].
    cbn [String.length] in Hlen.
    cbn [append checksum_loop spec_case_from String.length].
    unfold spec_case.
    replace (i + S (String.length r)) with (S i + String.length r) by lia.
    destruct (lower_hex_split c Hc) as [Hd | [Hd Hl]]; rewrite Hd.
    + rewrite IH by (auto; lia).
      rewrite append_assoc. rewrite <- digit_is_digit, Hd. reflexivity.
    + rewrite Hl. rewrite <- digit_is_digit, Hd.
      destruct (get_some dg i ltac:(lia)) as [h Hh].
      unfold Py.index, nibble_at. rewrite Hh. cbn [bind].
      destruct (int16_lower_hex h (all_chars_get _ _ _ _ Hdg Hh))
        as [n [Hv Hn]].
      rewrite Hn, Hv. cbn [bind].
      destruct (letter_facts c Hl) as [_ [Hlow _]].
      destruct (7 <? n)%Z; rewrite IH by (auto; lia);
        rewrite append_assoc; [reflexivity | now rewrite Hlow].
Qed.

(** X3. The first character outside [0-9a-f], when it comes within the first
    129 characters, stops the encoder with [AssertionError]. *)
Theorem checksum_encode_invalid_char (hex_addr pre post : string) (c : ascii) :
  stripped hex_addr = pre ++ String c post ->
  all_chars is_lower_hex pre = true ->
  is_lower_hex c = false ->
  String.length pre <= 128 ->
  checksum_encode hex_addr = Raise AssertionError.
Proof.
  intros Hs Hpre Hc Hlen. unfold checksum_encode.
  change (Py.replace "0x" "" (Py.lower hex_addr)) with (stripped hex_addr).
  rewrite Hs at 2.
  rewrite checksum_loop_app;
    [| apply sha3_512_hexdigest_lower_hex | exact Hpre
     | rewrite sha3_512_hexdigest_length; cbn; exact Hlen].
  cbn [checksum_loop]. rewrite lower_hex_classes in Hc.
  apply orb_false_iff in Hc as [-> ->]. reflexivity.
Qed.

Lemma checksum_encode_invalid_char_witness :
  stripped "0x12g4" = "12" ++ String "g" "4" /\
  checksum_encode "0x12g4" = Raise AssertionError /\
  checksum_encode "x" = Raise AssertionError.
Proof.
  split; [reflexivity|]. split.
  - apply (checksum_encode_invalid_char "0x12g4" "12" "4" "g");
      [reflexivity | reflexivity | reflexivity | cbn; lia].
  - apply (checksum_encode_invalid_char "x" "" "" "x");
      [reflexivity | reflexivity | reflexivity | cbn; lia].
Defined.

Lemma checksum_loop_out_of_range (dg : string) :
  all_chars is_lower_hex dg = true ->
  forall (pre post : string) (c : ascii) (i : nat) (buf : string),
    all_chars is_lower_hex pre = true ->
    Py.char_in c "abcdef" = true ->
    String.length dg <= i + String.length pre ->
    checksum_loop dg i (pre ++ String c post) buf = Raise IndexError.
Proof.
  intros Hdg. induction pre as [|d r IH]; intros post c i buf Hr Hc Hlen.
  - cbn [append checksum_loop].
    destruct (letter_facts c Hc) as [Hd _].
    rewrite digit_is_digit, Hd, Hc.
    unfold Py.index. rewrite get_none by (cbn in Hlen; lia). reflexivity.
  - cbn [all_chars] in Hr. apply andb_true_iff in Hr as [Hd Hr].
    cbn [String.length] in Hlen. cbn [append checksum_loop].
    destruct (lower_hex_split d Hd) as [Hdig | [Hdig Hl]]; rewrite Hdig.
    + apply IH; auto; lia.
    + rewrite Hl. unfold Py.index.
      destruct (String.get i dg) as [h|] eqn:Hh; [|reflexivity].
      cbn [bind].
      destruct (int16_lower_hex h (all_chars_get _ _ _ _ Hdg Hh))
        as [n [_ Hn]].
      rewrite Hn. cbn [bind].
      destruct (7 <? n)%Z; apply IH; auto; lia.
Qed.

(** X4. A letter at index 128 or beyond, after valid characters only, stops the
    encoder with [IndexError]: the digest has 128 nibbles. *)
Theorem checksum_encode_letter_out_of_range
        (hex_addr pre post : string) (c : ascii) :
  stripped hex_addr = pre ++ String c post ->
  all_chars is_lower_hex pre = true ->
  Py.char_in c "abcdef" = true ->
  128 <= String.length pre ->
  checksum_encode hex_addr = Raise IndexError.
Proof.
  intros Hs Hpre Hc Hlen. unfold checksum_encode.
  change (Py.replace "0x" "" (Py.lower hex_addr)) with (stripped hex_addr).
  rewrite Hs at 2.
  rewrite checksum_loop_out_of_range;
    [ reflexivity | apply sha3_512_hexdigest_lower_hex | exact Hpre
    | exact Hc | rewrite sha3_512_hexdigest_length; cbn; exact Hlen ].
Qed.

Lemma checksum_encode_letter_out_of_range_witness :
  let pre := "00000000000000000000000000000000000000000000000000000000000000000000000000000000000000000000000000000000000000000000000000000000" in
  128 <= String.length pre /\
  checksum_encode (pre ++ "f") = Raise IndexError.
Proof.
  split; [vm_compute; lia|].
  apply (checksum_encode_letter_out_of_range
           ("00000000000000000000000000000000000000000000000000000000000000000000000000000000000000000000000000000000000000000000000000000000" ++ "f") "00000000000000000000000000000000000000000000000000000000000000000000000000000000000000000000000000000000000000000000000000000000" "" "f");
    [reflexivity | reflexivity | reflexivity | vm_compute; lia].
Defined.

Lemma all_digits_loop (dg : string) :
  forall (r : string) (i : nat) (buf : string),
    all_chars Py.is_digit r = true ->
    checksum_loop dg i r buf = Ok (buf ++ r).
Proof.
  induction r as [|c r IH]; intros i buf Hr.
  - cbn. now rewrite append_nil_r.
  - cbn [all_chars] in Hr. apply andb_true_iff in Hr as [Hc Hr].
    cbn [checksum_loop]. rewrite digit_is_digit, Hc.
    rewrite IH by exact Hr. now rewrite append_assoc.
Qed.

(** X5. An input without letters, of any length, comes back as it is after the
    prefix: the digest is not consulted. *)
Theorem checksum_encode_digits_only (hex_addr : string) :
  all_chars Py.is_digit (stripped hex_addr) = true ->
  checksum_encode hex_addr = Ok ("0x" ++ stripped hex_addr).
Proof.
  intros H. unfold checksum_encode.
  change (Py.replace "0x" "" (Py.lower hex_addr)) with (stripped hex_addr).
  now rewrite all_digits_loop.
Qed.

Lemma checksum_encode_digits_only_witness :
  let a := "1234567890123456789012345678901234567890123456789012345678901234567890123456789012345678901234567890123456789012345678901234567890" in
  String.length a = 130 /\
  all_chars Py.is_digit (stripped a) = true /\
  checksum_encode a = Ok ("0x" ++ a).
Proof.
  split; [reflexivity|]. split; [reflexivity|].
  apply (checksum_encode_digits_only "1234567890123456789012345678901234567890123456789012345678901234567890123456789012345678901234567890123456789012345678901234567890").
  reflexivity.
Defined.

End ChecksumInputs.

(** ** AUTO_token_max: errors, and the shape of the names *)

Section SynthesisMore.

Lemma token_property_is_ok (attacker_address token : Address) (c : Z) :
  is_ok (token_property attacker_address token c) =
  is_ok (Py.int16 token) && is_ok (Py.int16 attacker_address).
Proof.
  unfold token_property.
  destruct (Py.int16 token); [|reflexivity].
  destruct (Py.int16 attacker_address); reflexivity.
Qed.

Lemma token_property_raises (attacker_address token : Address) (c : Z)
      (e : PyError) :
  token_property attacker_address token c = Raise e -> e = ValueError.
Proof.
  unfold token_property.
  destruct (Py.int16 token) as [t|e1] eqn:E1.
  - destruct (Py.int16 attacker_address) as [a|e2] eqn:E2; [discriminate|].
    cbn [bind]. intros [= <-]. eapply int16_raises, E2.
  - cbn [bind]. intros [= <-]. eapply int16_raises, E1.
Qed.

Lemma AUTO_token_loop_is_ok (attacker_address : Address)
      (items : list (string * Z)) :
  forall ps,
    is_ok (AUTO_token_loop attacker_address items ps) =
    forallb (fun item => is_ok (Py.int16 (fst item))
                         && is_ok (Py.int16 attacker_address)) items.
Proof.
  induction items as [|[token c] items IH]; intros ps; [reflexivity|].
  cbn [AUTO_token_loop forallb fst].
  rewrite <- (token_property_is_ok attacker_address token c).
  destruct (token_property attacker_address token c); cbn [bind is_ok andb];
    [apply IH | reflexivity].
Qed.

Lemma AUTO_token_loop_raises (attacker_address : Address)
      (items : list (string * Z)) :
  forall ps e,
    AUTO_token_loop attacker_address items ps = Raise e -> e = ValueError.
Proof.
  induction items as [|[token c] items IH]; intros ps e H; [discriminate|].
  cbn [AUTO_token_loop] in H.
  destruct (token_property attacker_address token c) as [p|e1] eqn:E.
  - cbn [bind] in H. eapply IH, H.
  - cbn [bind] in H. injection H as <-. eapply token_property_raises, E.
Qed.

(** X6. On a non-empty map, [AUTO_token_max] raises [ValueError] as soon as
    [int(., 16)] does not read the attacker address or does not read one of
    the token addresses, and it returns no records then; it raises no other
    exception. *)
Theorem AUTO_token_max_errors (attacker_address : Address)
        (tokens : OrderedDict.t Z) :
  (tokens <> [] ->
   is_ok (Py.int16 attacker_address) = false \/
   existsb (fun item => negb (is_ok (Py.int16 (fst item)))) tokens = true ->
   AUTO_token_max attacker_address tokens = Raise ValueError) /\
  (forall e, AUTO_token_max attacker_address tokens = Raise e ->
             e = ValueError).
Proof.
  assert (Hraise : forall e, AUTO_token_max attacker_address tokens = Raise e
                             -> e = ValueError)
    by (intros e; apply AUTO_token_loop_raises).
  split; [|exact Hraise].
  intros Hne Hbad.
  assert (Hnok : is_ok (AUTO_token_max attacker_address tokens) = false).
  { unfold AUTO_token_max, OrderedDict.items.
    rewrite AUTO_token_loop_is_ok.
    destruct Hbad as [Ha|Ht].
    - destruct tokens as [|item rest]; [congruence|].
      cbn [forallb]. now rewrite Ha, andb_false_r.
    - apply existsb_exists in Ht as [item [Hin Hitem]].
      apply negb_true_iff in Hitem.
      destruct (forallb _ tokens) eqn:Hall; [|reflexivity].
      rewrite forallb_forall in Hall. specialize (Hall item Hin).
      now rewrite Hitem in Hall. }
  destruct (AUTO_token_max attacker_address tokens) as [ps|e] eqn:E;
    [discriminate|].
  f_equal. now apply Hraise.
Qed.

Lemma AUTO_token_max_errors_witness :
  AUTO_token_max "0xbb" [("0xcc", 0%Z); ("cc0x", 0%Z)] = Raise ValueError /\
  AUTO_token_max "attacker" [("0xcc", 0%Z)] = Raise ValueError.
Proof.
  split.
  - apply (AUTO_token_max_errors "0xbb" [("0xcc", 0%Z); ("cc0x", 0%Z)]);
      [discriminate | right; reflexivity].
  - apply (AUTO_token_max_errors "attacker" [("0xcc", 0%Z)]);
      [discriminate | left; reflexivity].
Defined.

Lemma str_of_int_digits (n : Z) :
  (0 <= n)%Z -> all_chars Py.is_digit (Py.str_of_int n) = true.
Proof.
  intros Hn. unfold Py.str_of_int.
  assert (U : forall d, all_chars Py.is_digit (NilEmpty.string_of_uint d)
                        = true) by (induction d; cbn; auto).
  destruct n as [|p|p]; [reflexivity| |lia].
  cbn [Z.to_int NilZero.string_of_int]. unfold NilZero.string_of_uint.
  destruct (Pos.to_uint p); try reflexivity; apply U.
Qed.

Lemma identifier_classes (c : ascii) :
  (Py.is_digit c = true -> is_identifier_char c = true) /\
  (is_hex_digit c = true -> is_identifier_char c = true).
Proof. destruct c as [[] [] [] [] [] [] [] []]; split; auto. Qed.

(** X7. With a ceiling that is not negative and a token map keyed by addresses,
    the name of every emitted record is an identifier that starts with
    [crytic_], followed by [()]. *)
Theorem AUTO_token_max_names_are_identifiers (attacker_address : Address)
        (tokens : OrderedDict.t Z) (ps : list Property) :
  Forall (fun item => is_address (fst item) = true /\ (0 <= snd item)%Z)
         (OrderedDict.items tokens) ->
  AUTO_token_max attacker_address tokens = Ok ps ->
  Forall (fun p => exists body,
              name p = body ++ "()" /\
              all_chars is_identifier_char body = true /\
              String.prefix "crytic_" body = true) ps.
Proof.
  intros Hitems H. apply AUTO_token_max_ok in H.
  apply Forall_forall. intros p Hin.
  destruct (Forall2_In_r _ _ _ _ H Hin) as [[token c] [Hitem Hp]].
  rewrite Forall_forall in Hitems.
  destruct (Hitems _ Hitem) as [Haddr Hc]. cbn [fst snd] in Haddr, Hc.
  apply emitted_fields in Hp as [_ [_ [_ [_ [Hn _]]]]].
  cbn [fst snd] in Hn.
  exists ("crytic_attacker_cannot_get_tokens_more_than_"
          ++ Py.str_of_int c ++ "_from_" ++ Py.replace "0x" "" token).
  split; [|split; [|reflexivity]].
  - rewrite Hn. unfold property_name.
    now rewrite !append_assoc.
  - rewrite !all_chars_append. cbn [all_chars].
    assert (Hd : all_chars is_identifier_char (Py.str_of_int c) = true).
    { eapply all_chars_impl; [|apply str_of_int_digits, Hc].
      intros x. apply identifier_classes. }
    assert (Hh : all_chars is_identifier_char (Py.replace "0x" "" token)
                 = true).
    { pose proof (address_stripped token Haddr) as E.
      unfold is_address in Haddr. rewrite E in Haddr.
      apply andb_true_iff in Haddr as [_ Hhex].
      eapply all_chars_impl; [|exact Hhex].
      intros x. apply identifier_classes. }
    rewrite Hd, Hh. reflexivity.
Qed.

Lemma AUTO_token_max_names_are_identifiers_witness :
  exists ps,
    AUTO_token_max "0xbb" [("0xCc01", 12%Z)] = Ok ps /\
    Forall (fun p => exists body,
                name p = body ++ "()" /\
                all_chars is_identifier_char body = true /\
                String.prefix "crytic_" body = true) ps.
Proof.
  eexists. split; [vm_compute; reflexivity|].
  apply (AUTO_token_max_names_are_identifiers "0xbb" [("0xCc01", 12%Z)]).
  - repeat constructor; cbn; lia.
  - vm_compute. reflexivity.
Defined.

End SynthesisMore.

(** ** encode_transfer *)

Section EncodeTransfer.

Lemma hex_char_value (d : N) :
  (d < 16)%N -> Py.hex_value (Keccak.hex_char d) = Some (Z.of_N d).
Proof.
  intros H. destruct d as [|p]; [reflexivity|].
  do 4 (try destruct p as [p|p|]); try reflexivity; lia.
Qed.

Lemma hex_number_app (a b : string) :
  forall acc,
    hex_number (a ++ b) acc =
    match hex_number a acc with
    | Some v => hex_number b v
    | None => None
    end.
Proof.
  induction a as [|c a IH]; intros acc; [reflexivity|].
  cbn [append hex_number].
  destruct (Py.hex_value c); [apply IH | reflexivity].
Qed.

Lemma hex_digits_value (fuel : nat) :
  forall n, (n < 16 ^ N.of_nat fuel)%N ->
            hex_number (PyExt.hex_digits fuel n) 0 = Some (Z.of_N n).
Proof.
  induction fuel as [|f IH]; intros n Hn.
  - cbn in Hn. assert (n = 0%N) by lia. subst. reflexivity.
  - cbn [PyExt.hex_digits].
    destruct (N.ltb_spec n 16) as [Hs|Hb].
    + cbn [hex_number]. rewrite hex_char_value by exact Hs.
      f_equal; lia.
    + rewrite hex_number_app, IH.
      * cbn [hex_number].
        rewrite hex_char_value by (apply N.mod_lt; lia).
        f_equal. rewrite N2Z.inj_mod, N2Z.inj_div.
        change (Z.of_N 16) with 16%Z.
        pose proof (Z.div_mod (Z.of_N n) 16). lia.
      * apply N.Div0.div_lt_upper_bound.
        rewrite Nat2N.inj_succ, N.pow_succ_r' in Hn. exact Hn.
Qed.

Lemma hex_digits_lower_hex (fuel : nat) :
  forall n, all_chars is_lower_hex (PyExt.hex_digits fuel n) = true.
Proof.
  induction fuel as [|f IH]; intros n; [reflexivity|].
  cbn [PyExt.hex_digits].
  destruct (N.ltb_spec n 16) as [Hs|Hb].
  - cbn [all_chars]. now rewrite hex_char_lower_hex.
  - rewrite all_chars_append, IH. cbn [all_chars].
    rewrite hex_char_lower_hex by (apply N.mod_lt; lia). reflexivity.
Qed.

Lemma hex_digits_length (fuel : nat) :
  forall k n, (n < 16 ^ N.of_nat k)%N -> 1 <= k ->
              String.length (PyExt.hex_digits fuel n) <= k.
Proof.
  induction fuel as [|f IH]; intros k n Hn Hk; [cbn; lia|].
  cbn [PyExt.hex_digits].
  destruct (N.ltb_spec n 16) as [Hs|Hb]; [cbn; lia|].
  rewrite append_length. cbn [String.length].
  destruct k as [|[|k]]; [lia | cbn in Hn; lia |].
  specialize (IH (S k) (n / 16)%N).
  assert (n / 16 < 16 ^ N.of_nat (S k))%N.
  { apply N.Div0.div_lt_upper_bound.
    rewrite (Nat2N.inj_succ (S k)), N.pow_succ_r' in Hn. exact Hn. }
  specialize (IH H ltac:(lia)). lia.
Qed.

Lemma hex_fuel (m : N) : (m < 16 ^ N.of_nat (S (N.to_nat (N.log2 m))))%N.
Proof.
  rewrite Nat2N.inj_succ, N2Nat.id.
  destruct m as [|p]; [reflexivity|].
  pose proof (N.log2_spec (N.pos p) ltac:(lia)) as [_ H].
  eapply N.lt_le_trans; [exact H|].
  apply N.pow_le_mono_l. lia.
Qed.

(** [hex(n).replace("0x", "")] for [n >= 0] is the digits of [n]. *)
Lemma hex_stripped (n : Z) :
  (0 <= n)%Z ->
  exists d,
    Py.replace "0x" "" (PyExt.hex n) = d /\
    all_chars is_lower_hex d = true /\
    hex_number d 0 = Some n /\
    (forall k, (n < 16 ^ Z.of_nat k)%Z -> 1 <= k -> String.length d <= k).
Proof.
  intros Hn. unfold PyExt.hex.
  destruct (Z.ltb_spec n 0) as [|_]; [lia|].
  set (m := Z.abs_N n).
  exists (PyExt.hex_digits (S (N.to_nat (N.log2 m))) m).
  assert (Hm : Z.of_N m = n) by (unfold m; rewrite N2Z.inj_abs_N; lia).
  split; [|split; [|split]].
  - change ("" ++ "0x" ++ ?d) with (String "0" (String "x" d)).
    rewrite replace_0x_head.
    apply replace_no_x, lower_hex_no_x, hex_digits_lower_hex.
  - apply hex_digits_lower_hex.
  - rewrite hex_digits_value by apply hex_fuel. now rewrite Hm.
  - intros k Hk H1. apply hex_digits_length; [|exact H1].
    apply N2Z.inj_lt. rewrite Hm, N2Z.inj_pow, nat_N_Z. exact Hk.
Qed.

Lemma repeat_zero_length (m : nat) :
  String.length (PyExt.repeat "0" m) = m.
Proof. induction m as [|m IH]; cbn; [reflexivity | now rewrite IH]. Qed.

Lemma repeat_zero_hex (m : nat) :
  all_chars is_lower_hex (PyExt.repeat "0" m) = true.
Proof. induction m as [|m IH]; cbn; [reflexivity | exact IH]. Qed.

Lemma repeat_zero_number (m : nat) (d : string) :
  hex_number (PyExt.repeat "0" m ++ d) 0 = hex_number d 0.
Proof. induction m as [|m IH]; [reflexivity | exact IH]. Qed.

(** A word padded to [k] digits. *)
Lemma padded_word (k : nat) (d : string) :
  all_chars is_lower_hex d = true -> String.length d <= k ->
  let w := PyExt.repeat "0" (k - String.length d) ++ d in
  String.length w = k /\ all_chars is_lower_hex w = true /\
  hex_number w 0 = hex_number d 0.
Proof.
  intros Hd Hk. cbv zeta. split; [|split].
  - rewrite append_length, repeat_zero_length. lia.
  - now rewrite all_chars_append, repeat_zero_hex, Hd.
  - apply repeat_zero_number.
Qed.

Lemma get_function_id_range (sig : string) :
  (0 <= get_function_id sig < 16 ^ Z.of_nat 8)%Z.
Proof.
  unfold get_function_id, Keccak.keccak_256.
  pose proof (sponge_length 136 1 32 (Py.encode_utf8 sig)) as Hlen.
  pose proof (sponge_bytes 136 1 32 (Py.encode_utf8 sig)) as Hb.
  destruct (Keccak.sponge 136 1 32 (Py.encode_utf8 sig))
    as [|b0 [|b1 [|b2 [|b3 rest]]]]; try discriminate.
  inversion Hb as [|? ? H0 Hb1]; subst.
  inversion Hb1 as [|? ? H1 Hb2]; subst.
  inversion Hb2 as [|? ? H2 Hb3]; subst.
  inversion Hb3 as [|? ? H3 _]; subst.
  cbn [firstn fold_left]. change (16 ^ Z.of_nat 8)%Z with 4294967296%Z.
  lia.
Qed.

Lemma slice_to_app (a b : string) :
  Py.slice_to (String.length a) (a ++ b) = a.
Proof. induction a as [|c a IH]; cbn; [now destruct b | now rewrite IH]. Qed.

Lemma lower_hex_all_hex (s : string) :
  all_chars is_lower_hex s = true -> all_chars is_hex_digit s = true.
Proof. apply all_chars_impl, lower_hex_is_hex. Qed.

(** The selector word of the encoded call. *)
Lemma encode_transfer_selector (sig : string) (f t c : Address) (v : Z) :
  exists sw rest,
    encode_transfer sig f t c v
    = FunctionCall f c (String "0" (String "x" (sw ++ rest))) "0x0" "0x1" "0x1"
    /\ String.length sw = 8 /\ all_chars is_lower_hex sw = true /\
    hex_number sw 0 = Some (get_function_id sig).
Proof.
  pose proof (get_function_id_range sig) as [Hlo Hhi].
  destruct (hex_stripped (get_function_id sig) Hlo) as [d [Hd [Hhex [Hv Hl]]]].
  specialize (Hl 8 Hhi ltac:(lia)).
  destruct (padded_word 8 d Hhex Hl) as [Wl [Wh Wv]].
  unfold encode_transfer. rewrite Hd.
  exists (PyExt.repeat "0" (8 - String.length d) ++ d).
  eexists. split; [reflexivity|].
  split; [exact Wl|]. split; [exact Wh|]. now rewrite Wv.
Qed.

(** X8. Encoding, then reading the selector: the first ten characters of the
    data are read back as [get_function_id sig], so the scan records the
    callee [c] exactly when [sig] is one of the three token signatures;
    the sender [f] joins the accounts. *)
Theorem encode_transfer_scanned (sig : string) (f t c : Address) (v : Z)
        (max_balance : Z) (st : scan_state) (i : nat) :
  (exists data,
      encode_transfer sig f t c v
      = FunctionCall f c data "0x0" "0x1" "0x1" /\
      Py.int16 (Py.slice_to 10 data) = Ok (get_function_id sig)) /\
  scan_step max_balance st i (encode_transfer sig f t c v)
  = Ok {| accounts := set_add f (accounts st);
          last_create := last_create st;
          tokens := if int_in (get_function_id sig) erc20_sigs
                    then OrderedDict.setitem c max_balance (tokens st)
                    else tokens st |}.
Proof.
  destruct (encode_transfer_selector sig f t c v)
    as [sw [rest [E [Wl [Wh Wv]]]]].
  assert (R : Py.int16 (Py.slice_to 10 (String "0" (String "x" (sw ++ rest))))
              = Ok (get_function_id sig)).
  { change (Py.slice_to 10 (String "0" (String "x" (sw ++ rest))))
      with (String "0" (String "x" (Py.slice_to 8 (sw ++ rest)))).
    rewrite <- Wl at 1. rewrite slice_to_app.
    destruct (int16_0x sw (lower_hex_all_hex sw Wh)) as [x [Hx Ex]].
    { intros ->. discriminate. }
    rewrite Ex. congruence. }
  split.
  - eexists. split; [exact E | exact R].
  - rewrite E. cbn [scan_step]. rewrite R. reflexivity.
Qed.

(** X9. The layout of the data for an address [t] of at most 64 hex digits and
    an amount [v] below [2^256]: [0x], the selector on 8 digits, [t] on 64
    and [v] on 64, each word reading back as its value; 138 characters. *)
Theorem encode_transfer_layout (sig : string) (f t c : Address) (v : Z) :
  all_chars is_lower_hex (stripped t) = true ->
  String.length (stripped t) <= 64 ->
  (0 <= v < 2 ^ 256)%Z ->
  exists sw tw vw,
    encode_transfer sig f t c v
    = FunctionCall f c ("0x" ++ sw ++ tw ++ vw) "0x0" "0x1" "0x1" /\
    String.length sw = 8 /\ String.length tw = 64 /\
    String.length vw = 64 /\
    hex_number sw 0 = Some (get_function_id sig) /\
    hex_number tw 0 = hex_number (stripped t) 0 /\
    hex_number vw 0 = Some v /\
    is_hex_blob ("0x" ++ sw ++ tw ++ vw) = true /\
    String.length ("0x" ++ sw ++ tw ++ vw) = 138.
Proof.
  intros Ht Htl [Hv0 Hv1].
  pose proof (get_function_id_range sig) as [Hlo Hhi].
  destruct (hex_stripped (get_function_id sig) Hlo) as [d [Hd [Hhex [Hval Hl]]]].
  specialize (Hl 8 Hhi ltac:(lia)).
  destruct (padded_word 8 d Hhex Hl) as [Sl [Sh Sv]].
  destruct (padded_word 64 (stripped t) Ht Htl) as [Tl [Th Tv]].
  destruct (hex_stripped v Hv0) as [dv [Hdv [Hvhex [Hvval Hvl]]]].
  assert (Hv64 : String.length dv <= 64).
  { apply Hvl; [|lia].
    change (16 ^ Z.of_nat 64)%Z with (2 ^ 256)%Z. exact Hv1. }
  destruct (padded_word 64 dv Hvhex Hv64) as [Vl [Vh Vv]].
  unfold encode_transfer. fold (stripped t). rewrite Hd, Hdv.
  set (sw := PyExt.repeat "0" (8 - String.length d) ++ d) in *.
  set (tw := PyExt.repeat "0" (64 - String.length (stripped t))
             ++ stripped t) in *.
  set (vw := PyExt.repeat "0" (64 - String.length dv) ++ dv) in *.
  exists sw, tw, vw.
  split; [reflexivity|].
  split; [exact Sl|]. split; [exact Tl|]. split; [exact Vl|].
  split; [now rewrite Sv|]. split; [exact Tv|]. split; [now rewrite Vv|].
  split.
  - change ("0x" ++ ?w) with (String "0" (String "x" w)).
    cbn [is_hex_blob]. rewrite !append_length, Sl, Tl, Vl.
    rewrite !all_chars_append.
    rewrite (lower_hex_all_hex _ Sh), (lower_hex_all_hex _ Th),
      (lower_hex_all_hex _ Vh). reflexivity.
  - change ("0x" ++ ?w) with (String "0" (String "x" w)).
    cbn [String.length]. rewrite !append_length, Sl, Tl, Vl. reflexivity.
Qed.

Lemma encode_transfer_layout_witness :
  exists sw tw vw,
    encode_transfer "transfer(address,uint256)" "0xaa"
                    "0x5aAeb6053F3E94C9b9A09f33669435E7Ef1BeAed" "0xcc" 1000
    = FunctionCall "0xaa" "0xcc" ("0x" ++ sw ++ tw ++ vw) "0x0" "0x1" "0x1" /\
    String.length sw = 8 /\ String.length tw = 64 /\
    String.length vw = 64 /\
    hex_number vw 0 = Some 1000%Z.
Proof.
  destruct (encode_transfer_layout
              "transfer(address,uint256)" "0xaa"
              "0x5aAeb6053F3E94C9b9A09f33669435E7Ef1BeAed" "0xcc" 1000)
    as [sw [tw [vw [E [Sl [Tl [Vl [_ [_ [Vv _]]]]]]]]]].
  - reflexivity.
  - vm_compute. lia.
  - split; [lia | reflexivity].
  - exists sw, tw, vw. repeat split; assumption.
Defined.

End EncodeTransfer.

(** ** detect_token_props: the accounts *)

Section Accounts.

Lemma set_add_In (x a : string) (s : list string) :
  In a (set_add x s) <-> a = x \/ In a s.
Proof.
  induction s as [|y s IH]; cbn [set_add In].
  - intuition auto.
  - destruct (String.eqb_spec y x) as [->|Hne]; cbn [In].
    + intuition auto.
    + rewrite IH. intuition auto.
Qed.

Lemma set_add_NoDup (x : string) (s : list string) :
  NoDup s -> NoDup (set_add x s).
Proof.
  induction 1 as [|y s Hy Hs IH]; cbn [set_add].
  - constructor; [intros [] | constructor].
  - destruct (String.eqb_spec y x) as [->|Hne].
    + now constructor.
    + constructor; [|exact IH].
      rewrite set_add_In. intros [->|Hin]; [now apply Hne | now apply Hy].
Qed.

Lemma scan_step_accounts (c : Z) (st st' : scan_state) (i : nat) (tx : Event) :
  scan_step c st i tx = Ok st' ->
  (NoDup (accounts st) -> NoDup (accounts st')) /\
  (forall a, In a (accounts st') <-> In a (accounts st) \/ In a (sender tx)).
Proof.
  destruct tx as [from|from to data v gu gp|n]; cbn [scan_step sender].
  - intros [= <-]. cbn [accounts]. split; [apply set_add_NoDup|].
    intros a. rewrite set_add_In. cbn [In]. intuition auto.
  - destruct (Py.int16 (Py.slice_to 10 data)) as [sel|]; [|discriminate].
    cbn [bind]. intros [= <-]. cbn [accounts].
    split; [apply set_add_NoDup|].
    intros a. rewrite set_add_In. cbn [In]. intuition auto.
  - intros [= <-]. split; [auto|]. intros a. cbn [In]. intuition auto.
Qed.

Lemma scan_loop_accounts (c : Z) (txs : list Event) :
  forall st i st',
    scan_loop c st i txs = Ok st' ->
    (NoDup (accounts st) -> NoDup (accounts st')) /\
    (forall a, In a (accounts st') <->
               In a (accounts st) \/ In a (flat_map sender txs)).
Proof.
  induction txs as [|tx txs IH]; intros st i st' H.
  - injection H as <-. split; [auto|]. intros a. cbn [flat_map In].
    intuition auto.
  - cbn [scan_loop] in H.
    destruct (scan_step c st i tx) as [st1|] eqn:E; [|discriminate].
    cbn [bind] in H.
    apply scan_step_accounts in E as [N1 M1].
    apply IH in H as [N2 M2].
    split; [auto|].
    intros a. rewrite M2, M1. cbn [flat_map]. rewrite in_app_iff.
    intuition auto.
Qed.

(** X10. The accounts that the analyzer returns are, without repetition, the
    [from] addresses of the ContractCreated and FunctionCall events of the
    trace; a [to] address is among them only if it is also a sender.  Adding
    the attacker, as [generate_auto] does, keeps the set duplicate-free. *)
Theorem accounts_are_senders (txs : list Event) (attacker_address : Address)
        (max_balance : option Z) (r : analysis) :
  detect_token_props txs attacker_address max_balance = Ok r ->
  NoDup (an_accounts r) /\
  (forall a, In a (an_accounts r) <-> In a (flat_map sender txs)) /\
  NoDup (set_add attacker_address (an_accounts r)) /\
  (forall a, In a (set_add attacker_address (an_accounts r)) <->
             a = attacker_address \/ In a (flat_map sender txs)).
Proof.
  intros H. apply detect_ok in H as [st [lc [E [_ ->]]]].
  cbn [an_accounts].
  apply scan_loop_accounts in E as [N M]. cbn [accounts scan_init] in N, M.
  assert (Nd : NoDup (accounts st)) by (apply N; constructor).
  assert (Mem : forall a, In a (accounts st) <-> In a (flat_map sender txs)).
  { intros a. rewrite M. cbn [In]. intuition auto. }
  split; [exact Nd|]. split; [exact Mem|].
  split; [now apply set_add_NoDup|].
  intros a. now rewrite set_add_In, Mem.
Qed.

Lemma accounts_are_senders_witness :
  let txs := [ ContractCreated "0xaa";
               FunctionCall "0xbb" "0xcc" "0x70a08231" "0x0" "0x1" "0x1";
               OtherEvent "AccountCreated";
               FunctionCall "0xaa" "0xdd" "0x12" "0x0" "0x1" "0x1" ] in
  exists r,
    detect_token_props txs "0xee" None = Ok r /\
    an_accounts r = ["0xaa"; "0xbb"] /\
    NoDup (set_add "0xee" (an_accounts r)).
Proof.
  cbv zeta. eexists. split; [vm_compute; reflexivity|].
  split; [reflexivity|].
  eapply (accounts_are_senders
            [ ContractCreated "0xaa";
              FunctionCall "0xbb" "0xcc" "0x70a08231" "0x0" "0x1" "0x1";
              OtherEvent "AccountCreated";
              FunctionCall "0xaa" "0xdd" "0x12" "0x0" "0x1" "0x1" ]
            "0xee" None).
  vm_compute. reflexivity.
Defined.

End Accounts.

(** ** From the trace to the rendered properties *)

Section Pipeline.

Lemma first_seen_subset (l : list Address) (P : Address -> Prop) :
  Forall P l -> Forall P (first_seen l).
Proof.
  intros H. apply Forall_forall. intros a Ha.
  rewrite Forall_forall in H. apply H. now apply first_seen_In.
Qed.

(** X11. The two calls at the head of [generate_auto]: on a trace with a creation
    event, readable selectors and addresses as callees, and with an attacker
    address, the analysis followed by the synthesis returns one record per
    distinct matched callee, all with the ceiling of the run ([0] when none
    is given), under pairwise distinct names. *)
Theorem analysis_then_synthesis (txs : list Event) (attacker : Address)
        (max_balance : option Z) (a : Z) :
  existsb is_create txs = true ->
  forallb selector_parses txs = true ->
  Py.int16 attacker = Ok a ->
  Forall (fun to => is_address to = true) (matching_calls txs) ->
  exists r ps,
    detect_token_props txs attacker max_balance = Ok r /\
    AUTO_token_max attacker (an_tokens r) = Ok ps /\
    List.length ps = List.length (first_seen (matching_calls txs)) /\
    NoDup (map name ps) /\
    Forall (fun p => exists t,
                content p = String newline (String tab (String tab
                              (balance_assertion t a (ceiling_of max_balance)))))
           ps.
Proof.
  intros Hc Hp Ha Hto.
  destruct (detect_returns attacker txs max_balance Hc Hp)
    as [st [lc [Es [_ E]]]].
  pose proof (tokens_closed _ _ _ Es) as Ht.
  set (keys := first_seen (matching_calls txs)) in *.
  assert (Hkeys : Forall (fun to => is_address to = true) keys)
    by now apply first_seen_subset.
  destruct (AUTO_token_loop_total attacker (tokens st)) with (ps := @nil Property)
    as [ps [Eps Hps]].
  { rewrite Ht. unfold with_ceiling. apply Forall_forall.
    intros item Hin. apply in_map_iff in Hin as [k [<- Hk]].
    rewrite Forall_forall in Hkeys. specialize (Hkeys k Hk).
    destruct (address_int16 k Hkeys) as [t Et].
    unfold emitted, token_property. cbn [fst snd]. rewrite Et, Ha.
    cbn [bind]. eauto. }
  eexists. exists ps. split; [exact E|]. cbn [an_tokens].
  split; [exact Eps|]. split; [|split].
  - apply Forall2_length in Hps. rewrite <- Hps, Ht.
    unfold with_ceiling. apply length_map.
  - eapply names_NoDup; [exact Hps | |].
    + rewrite Ht. unfold with_ceiling. apply Forall_forall.
      intros item Hin. apply in_map_iff in Hin as [k [<- Hk]].
      rewrite Forall_forall in Hkeys. now apply Hkeys.
    + change (map fst (tokens st)) with (OrderedDict.keys (tokens st)).
      rewrite Ht, with_ceiling_keys. apply first_seen_NoDup.
  - apply Forall_forall. intros p Hin.
    destruct (Forall2_In_r _ _ _ _ Hps Hin) as [item [Hitem Hp']].
    apply emitted_fields in Hp' as [t [a' [_ [Ha' [_ [Hcont _]]]]]].
    rewrite Ha in Ha'. injection Ha' as <-.
    rewrite Ht in Hitem. unfold with_ceiling in Hitem.
    apply in_map_iff in Hitem as [k [<- _]]. cbn [snd] in Hcont.
    exists t. exact Hcont.
Qed.

Lemma analysis_then_synthesis_witness :
  let txs := [ ContractCreated "0xaa";
               FunctionCall "0xbb" "0xc1" "0x70a08231" "0x0" "0x1" "0x1";
               FunctionCall "0xbb" "0xc2" "0xa9059cbb" "0x0" "0x1" "0x1";
               FunctionCall "0xbb" "0xc1" "0x095ea7b3" "0x0" "0x1" "0x1" ] in
  exists r ps,
    detect_token_props txs "0xbb" (Some 3%Z) = Ok r /\
    AUTO_token_max "0xbb" (an_tokens r) = Ok ps /\
    List.length ps = 2 /\ NoDup (map name ps).
Proof.
  cbv zeta.
  destruct (analysis_then_synthesis
              [ ContractCreated "0xaa";
                FunctionCall "0xbb" "0xc1" "0x70a08231" "0x0" "0x1" "0x1";
                FunctionCall "0xbb" "0xc2" "0xa9059cbb" "0x0" "0x1" "0x1";
                FunctionCall "0xbb" "0xc1" "0x095ea7b3" "0x0" "0x1" "0x1" ]
              "0xbb" (Some 3%Z) 187%Z)
    as [r [ps [E [Eps [Hlen [Hnd _]]]]]].
  - reflexivity.
  - reflexivity.
  - reflexivity.
  - vm_compute. repeat constructor.
  - exists r, ps. repeat split; assumption.
Defined.

(** X12. [_get_properties] on what [AUTO_token_max] returns: the source text is
    the rendered records joined by newlines, in order, and there are no unit
    tests. *)
Theorem AUTO_properties_have_no_unit_tests
        (property_to_solidity : Property -> string)
        (attacker_address : Address) (tokens : OrderedDict.t Z)
        (ps : list Property) :
  AUTO_token_max attacker_address tokens = Ok ps ->
  _get_properties property_to_solidity ps
  = (PyExt.join (String newline "") (map property_to_solidity ps), []).
Proof.
  intros H. apply AUTO_token_max_ok in H.
  unfold _get_properties. f_equal.
  assert (Hall : Forall (fun p => is_unit_test p = false) ps).
  { apply Forall_forall. intros p Hin.
    destruct (Forall2_In_r _ _ _ _ H Hin) as [item [_ Hp]].
    now apply emitted_fields in Hp as [_ [_ [_ [_ [_ [_ [_ [_ [Hu _]]]]]]]]]. }
  clear H. induction Hall as [|p ps Hp _ IH]; [reflexivity|].
  cbn [filter]. now rewrite Hp.
Qed.

Lemma AUTO_properties_have_no_unit_tests_witness :
  exists ps,
    AUTO_token_max "0xbb" [("0xcc", 0%Z); ("0xdd", 0%Z)] = Ok ps /\
    _get_properties name ps
    = ("crytic_attacker_cannot_get_tokens_more_than_0_from_cc()"
       ++ String newline
            "crytic_attacker_cannot_get_tokens_more_than_0_from_dd()", []).
Proof.
  eexists. split; [vm_compute; reflexivity|].
  rewrite (AUTO_properties_have_no_unit_tests
             name "0xbb" [("0xcc", 0%Z); ("0xdd", 0%Z)]);
    vm_compute; reflexivity.
Defined.

End Pipeline.

(** ** _check_compatibility *)

Section Compatibility.

Lemma requires_public_nonempty (f : Function) :
  String.eqb (requires_public f) "" = false.
Proof. reflexivity. Qed.

Lemma requires_public_app_nonempty (f : Function) (x : string) :
  String.eqb (requires_public f ++ x) "" = false.
Proof. reflexivity. Qed.

Variable contract : Contract.
Variables transfer transfer_from approve : Function.

Hypothesis erc20 : is_erc20 contract = true.
Hypothesis has_transfer :
  get_function_from_signature contract "transfer(address,uint256)"
  = Some transfer.
Hypothesis has_transfer_from :
  get_function_from_signature contract "transferFrom(address,address,uint256)"
  = Some transfer_from.
Hypothesis has_approve :
  get_function_from_signature contract "approve(address,uint256)"
  = Some approve.

Lemma check_compatibility_join :
  _check_compatibility contract =
  Some (PyExt.join (String newline "")
          (map requires_public
               (filter (fun f => negb (is_public f))
                       [transfer; transfer_from; approve]))).
Proof.
  unfold _check_compatibility, is_public.
  rewrite erc20, has_transfer, has_transfer_from, has_approve.
  cbn [negb filter].
  destruct (String.eqb (visibility transfer) "public");
    destruct (String.eqb (visibility transfer_from) "public");
    destruct (String.eqb (visibility approve) "public");
    cbn [negb map PyExt.join];
    repeat (progress cbn [append negb String.eqb]
            || rewrite requires_public_nonempty
            || rewrite requires_public_app_nonempty
            || rewrite append_assoc);
    reflexivity.
Qed.

End Compatibility.

Section CompatibilityClaims.

(** X13. For an ERC20 contract that has the three functions, the errors are the
    messages of those that are not public, in the order transfer,
    transferFrom, approve, joined by newlines: every problem is reported,
    not only the first. *)
Theorem check_compatibility_reports_all (contract : Contract)
        (transfer transfer_from approve : Function) :
  is_erc20 contract = true ->
  get_function_from_signature contract "transfer(address,uint256)"
  = Some transfer ->
  get_function_from_signature contract "transferFrom(address,address,uint256)"
  = Some transfer_from ->
  get_function_from_signature contract "approve(address,uint256)"
  = Some approve ->
  _check_compatibility contract =
  Some (PyExt.join (String newline "")
          (map requires_public
               (filter (fun f => negb (is_public f))
                       [transfer; transfer_from; approve]))).
Proof. apply check_compatibility_join. Qed.

Lemma check_compatibility_reports_all_witness :
  let f v n := {| visibility := v; canonical_name := n |} in
  let c := {| contract_str := "Token";
              is_erc20 := true;
              get_function_from_signature :=
                fun sig =>
                  if String.eqb sig "transferFrom(address,address,uint256)"
                  then Some (f "public" "Token.transferFrom")
                  else Some (f "external" ("Token." ++ sig)) |} in
  _check_compatibility c =
  Some ("slither-prop requires Token.transfer(address,uint256) to be public. Please change the visibility"
        ++ String newline
           "slither-prop requires Token.approve(address,uint256) to be public. Please change the visibility").
Proof.
  cbv zeta.
  rewrite (check_compatibility_reports_all _
             {| visibility := "external";
                canonical_name := "Token.transfer(address,uint256)" |}
             {| visibility := "public";
                canonical_name := "Token.transferFrom" |}
             {| visibility := "external";
                canonical_name := "Token.approve(address,uint256)" |});
    reflexivity.
Defined.

(** X14. The result is the empty string exactly for an ERC20 contract whose
    transfer, transferFrom and approve exist and are all public. *)
Theorem check_compatibility_empty_iff (contract : Contract) :
  _check_compatibility contract = Some "" <->
  is_erc20 contract = true /\
  exists transfer transfer_from approve,
    get_function_from_signature contract "transfer(address,uint256)"
    = Some transfer /\
    get_function_from_signature contract
                                "transferFrom(address,address,uint256)"
    = Some transfer_from /\
    get_function_from_signature contract "approve(address,uint256)"
    = Some approve /\
    is_public transfer = true /\ is_public transfer_from = true /\
    is_public approve = true.
Proof.
  split.
  - intros H.
    destruct (is_erc20 contract) eqn:He.
    + split; [reflexivity|].
      destruct (get_function_from_signature contract "transfer(address,uint256)")
        as [tr|] eqn:H1;
        [|unfold _check_compatibility in H; rewrite He, H1 in H; discriminate].
      destruct (get_function_from_signature
                  contract "transferFrom(address,address,uint256)")
        as [tf|] eqn:H2;
        [|unfold _check_compatibility in H; rewrite He, H1, H2 in H;
          discriminate].
      destruct (get_function_from_signature contract "approve(address,uint256)")
        as [ap|] eqn:H3;
        [|unfold _check_compatibility in H; rewrite He, H1, H2, H3 in H;
          discriminate].
      rewrite (check_compatibility_join contract tr tf ap He H1 H2 H3) in H.
      exists tr, tf, ap. repeat split; try reflexivity.
      all: cbn [filter] in H;
        destruct (is_public tr), (is_public tf), (is_public ap);
        try reflexivity; cbn in H; discriminate.
    + unfold _check_compatibility in H. rewrite He in H. cbn [negb] in H.
      injection H as H. apply (f_equal String.length) in H.
      rewrite append_length in H. cbn in H. lia.
  - intros [He [tr [tf [ap [H1 [H2 [H3 [P1 [P2 P3]]]]]]]]].
    rewrite (check_compatibility_join contract tr tf ap He H1 H2 H3).
    cbn [filter]. now rewrite P1, P2, P3.
Qed.

Lemma check_compatibility_empty_iff_witness :
  let pub n := Some {| visibility := "public"; canonical_name := n |} in
  _check_compatibility {| contract_str := "Token";
                          is_erc20 := true;
                          get_function_from_signature := pub |} = Some "" /\
  _check_compatibility {| contract_str := "Token";
                          is_erc20 := false;
                          get_function_from_signature := pub |} <> Some "".
Proof.
  cbv zeta. split.
  - apply check_compatibility_empty_iff. split; [reflexivity|].
    do 3 eexists. repeat split; reflexivity.
  - intros H. apply check_compatibility_empty_iff in H as [H _].
    discriminate.
Defined.

End CompatibilityClaims.

(** ** _initialization_recommendation *)

Section Recommendation.

(** X15. Whatever the property type, the recommendation starts with the four
    lines on the configuration and each of its lines is empty or a comment
    indented by two tabs: it adds no code to the contract it is pasted in. *)
Theorem initialization_recommendation_is_comment (type_property : string) :
  forallb is_comment_line (lines (_initialization_recommendation type_property))
  = true /\
  String.prefix
    (String tab (String tab ("// Add below a minimal configuration:"
     ++ String newline (String tab (String tab ("// - crytic_owner must have some tokens "
     ++ String newline (String tab (String tab ("// - crytic_user must have some tokens "
     ++ String newline (String tab (String tab ("// - crytic_attacker must have some tokens "
     ++ String newline ("")))))))))))))
    (_initialization_recommendation type_property) = true.
Proof.
  unfold _initialization_recommendation.
  destruct (PyExt.str_in type_property ["Pausable"]);
    destruct (PyExt.str_in type_property
                           ["NotMintable"; "NotMintableNotBurnable"]);
    destruct (PyExt.str_in type_property
                           ["NotBurnable"; "NotMintableNotBurnable"]);
    split; vm_compute; reflexivity.
Qed.

End Recommendation.
